(** * Conversation store, sanitizing formatter and request dispatcher

    A shallow embedding of [database.py], [utils.py] and [app.py]: the two
    SQLite tables as a finite map and a list of rows, every method of
    [ChatDatabase] as a computation in a small state-and-exception monad
    over the database file, and the Flask handlers as computations over the
    file together with the in-memory [chat_sessions] dictionary. *)

From Stdlib Require Import ZArith Ascii String List Sorting.Sorted.
From stdpp Require Import base option list sorting gmap strings.

Set Warnings "-register-all".

Local Open Scope string_scope.
Local Open Scope Z_scope.

(** ** Python values shared by the three files *)

(** [not s] for a Python string. *)
Definition falsy (s : string) : bool :=
  match s with EmptyString => true | String _ _ => false end.

(** [a or b] on strings. *)
Definition py_or (a b : string) : string := if falsy a then b else a.

(** [s[:n]]. *)
Definition slice_to (n : nat) (s : string) : string := String.substring 0 n s.

(** [str.upper()] on the ASCII letters. *)
Definition upper_char (c : ascii) : ascii :=
  let n := nat_of_ascii c in
  if ((97 <=? n) && (n <=? 122))%nat then ascii_of_nat (n - 32) else c.

Fixpoint upper (s : string) : string :=
  match s with
  | EmptyString => EmptyString
  | String c s' => String (upper_char c) (upper s')
  end.

(** Exceptions that the modelled code raises or lets through. *)
Inductive exn : Type :=
  | IntegrityError (msg : string)
  | TypeError (msg : string)
  | ValueError (msg : string)
  | ProviderError (msg : string).

(** [str(e)] *)
Definition str_exn (e : exn) : string :=
  match e with
  | IntegrityError m | TypeError m | ValueError m | ProviderError m => m
  end.

Inductive outcome (A : Type) : Type :=
  | Return (a : A)
  | Raise (e : exn).
Arguments Return {A} a.
Arguments Raise {A} e.

(** ** The SQLite file *)

(** A row of [sessions] without its primary key, which is the key of the
    map. Timestamps are the text that [CURRENT_TIMESTAMP] yields,
    [YYYY-MM-DD HH:MM:SS], compared bytewise as SQLite compares text. *)
Record SessionRow : Type := mkSession {
  s_created_at : string;
  s_updated_at : string;
  s_title : string;
  s_model_name : string
}.

Record MessageRow : Type := mkMessage {
  m_id : N;
  m_session_id : string;
  m_sender : string;
  m_content : string;
  m_formatted_content : option string;
  m_timestamp : string
}.

(** The statements the code sends to the engine, one per [cursor.execute]. *)
Inductive stmt : Type :=
  | INSERT_session (id ttl : string)
  | SELECT_session (id : string)
  | INSERT_message (sid snd txt : string) (fmt : option string)
  | UPDATE_updated_at (id : string)
  | UPDATE_title (ttl id : string)
  | SELECT_messages (id : string)
  | DELETE_session (id : string)
  | SELECT_search (pattern : string) (limit : Z).

(** The database file: both tables, the AUTOINCREMENT counter of
    [messages], and the journal of the statements executed so far.
    [messages] is kept in rowid order, that is, in insertion order. *)
Record Store : Type := mkStore {
  sessions : gmap string SessionRow;
  messages : list MessageRow;
  sqlite_sequence : N;
  journal : list stmt
}.

(** What [init_database] leaves on a fresh file. *)
Definition init_database : Store :=
  {| sessions := ∅; messages := []; sqlite_sequence := 0%N; journal := [] |}.

Definition DB (A : Type) : Type := Store -> outcome A * Store.

#[global] Instance DB_ret : MRet DB := fun A a st => (Return a, st).

#[global] Instance DB_bind : MBind DB := fun A B k m st =>
  match m st with
  | (Return a, st') => k a st'
  | (Raise e, st') => (Raise e, st')
  end.

Definition raise {A} (e : exn) : DB A := fun st => (Raise e, st).

(** ** The SQL engine *)

(** A connection. SQLite enforces FOREIGN KEY clauses, and so performs
    ON DELETE CASCADE, only on a connection where [PRAGMA foreign_keys]
    has been switched on; it is off on every new connection. *)
Record Connection : Type := mkConn { foreign_keys : bool }.

(** [sqlite3.connect(self.db_path)]: no method of [ChatDatabase] issues the
    pragma, so every statement runs with the default. *)
Definition connect : Connection := {| foreign_keys := false |}.

Definition log (s : stmt) (st : Store) : Store :=
  {| sessions := sessions st; messages := messages st;
     sqlite_sequence := sqlite_sequence st; journal := journal st ++ [s] |}.

Definition with_sessions (ss : gmap string SessionRow) (st : Store) : Store :=
  {| sessions := ss; messages := messages st;
     sqlite_sequence := sqlite_sequence st; journal := journal st |}.

(** Stable insertion sort: rows with equal keys stay in scan order. *)
Fixpoint insert_by {A} (le : A -> A -> bool) (x : A) (l : list A) : list A :=
  match l with
  | [] => [x]
  | y :: l' => if le x y then x :: y :: l' else y :: insert_by le x l'
  end.

Fixpoint order_by {A} (le : A -> A -> bool) (l : list A) : list A :=
  match l with
  | [] => []
  | x :: l' => insert_by le x (order_by le l')
  end.

(** The order that a comparison written as a test stands for. *)
Definition leP {A} (le : A -> A -> bool) (x y : A) : Prop := le x y = true.

(** [LIMIT n]: a negative [n] means no limit. *)
Definition sql_limit {A} (n : Z) (l : list A) : list A :=
  if n <? 0 then l else take (Z.to_nat n) l.

(** [LIKE] of SQLite: [%] matches any run of characters, [_] any single
    one, and letters of ASCII match without regard to case. *)
Definition lower_char (c : ascii) : ascii :=
  let n := nat_of_ascii c in
  if ((65 <=? n) && (n <=? 90))%nat then ascii_of_nat (n + 32) else c.

Definition eq_nocase (c d : ascii) : bool :=
  Ascii.eqb (lower_char c) (lower_char d).

Fixpoint like (pattern : string) : string -> bool :=
  match pattern with
  | EmptyString => fun s => falsy s
  | String c p' =>
      if Ascii.eqb c "%" then
        fix star (s : string) : bool :=
          like p' s || match s with
                       | EmptyString => false
                       | String _ s' => star s'
                       end
      else
        fun s =>
          match s with
          | EmptyString => false
          | String d s' => (Ascii.eqb c "_" || eq_nocase c d) && like p' s'
          end
  end.

(** The JSON documents that [json.dumps] is given. *)
Inductive json : Type :=
  | JNull
  | JStr (s : string)
  | JList (l : list json)
  | JDict (fields : list (string * json)).

Definition nl : string := String (ascii_of_nat 10) EmptyString.

(** [c * n] for a one-character string. *)
Fixpoint repeat_char (c : ascii) (n : nat) : string :=
  match n with
  | O => EmptyString
  | S n' => String c (repeat_char c n')
  end.

(** ** [database.py]: class [ChatDatabase] *)

Module database.

(** The dictionaries the methods return, one record per shape. *)
Record SessionDict : Type := mkSessionDict {
  d_id : string;
  d_created_at : string;
  d_updated_at : string;
  d_title : string;
  d_model_name : string
}.

Record MessageDict : Type := mkMessageDict {
  d_sender : string;
  d_content : string;
  d_formatted_content : option string;
  d_timestamp : string
}.

Record Hit : Type := mkHit {
  h_session_id : string;
  h_session_title : string;
  h_sender : string;
  h_content : string;
  h_timestamp : string
}.

Section WithClock.

(** [clock n] is what [CURRENT_TIMESTAMP] yields in the statement that is
    executed when [n] statements have been executed before it. *)
Variable clock : nat -> string.

Definition now (st : Store) : string := clock (length (journal st)).

(** *** The statements *)

Definition sql_insert_session (conn : Connection) (id ttl : string) : DB unit :=
  fun st =>
    match sessions st !! id with
    | Some _ =>
        (Raise (IntegrityError "UNIQUE constraint failed: sessions.id"),
         log (INSERT_session id ttl) st)
    | None =>
        let row := {| s_created_at := now st; s_updated_at := now st;
                      s_title := ttl; s_model_name := "gemini-1.5-flash" |} in
        (Return tt,
         log (INSERT_session id ttl)
           (with_sessions (<[id := row]> (sessions st)) st))
    end.

Definition sql_select_session (conn : Connection) (id : string)
  : DB (option SessionRow) :=
  fun st => (Return (sessions st !! id), log (SELECT_session id) st).

Definition sql_insert_message (conn : Connection)
    (sid snd txt : string) (fmt : option string) : DB unit :=
  fun st =>
    if foreign_keys conn && bool_decide (sessions st !! sid = None) then
      (Raise (IntegrityError "FOREIGN KEY constraint failed"),
       log (INSERT_message sid snd txt fmt) st)
    else
      let rowid := (sqlite_sequence st + 1)%N in
      let row := {| m_id := rowid; m_session_id := sid; m_sender := snd;
                    m_content := txt; m_formatted_content := fmt;
                    m_timestamp := now st |} in
      (Return tt,
       log (INSERT_message sid snd txt fmt)
         {| sessions := sessions st; messages := messages st ++ [row];
            sqlite_sequence := rowid; journal := journal st |}).

Definition touch (t : string) (row : SessionRow) : SessionRow :=
  {| s_created_at := s_created_at row; s_updated_at := t;
     s_title := s_title row; s_model_name := s_model_name row |}.

Definition sql_update_updated_at (conn : Connection) (id : string) : DB unit :=
  fun st =>
    (Return tt,
     log (UPDATE_updated_at id)
       (with_sessions (alter (touch (now st)) id (sessions st)) st)).

Definition retitle (ttl : string) (row : SessionRow) : SessionRow :=
  if String.eqb (s_title row) "New Chat" then
    {| s_created_at := s_created_at row; s_updated_at := s_updated_at row;
       s_title := ttl; s_model_name := s_model_name row |}
  else row.

(** [UPDATE sessions SET title = ? WHERE id = ? AND title = 'New Chat'] *)
Definition sql_update_title (conn : Connection) (ttl id : string) : DB unit :=
  fun st =>
    (Return tt,
     log (UPDATE_title ttl id)
       (with_sessions (alter (retitle ttl) id (sessions st)) st)).

Definition of_session (id : string) (m : MessageRow) : bool :=
  String.eqb (m_session_id m) id.

Definition ts_asc (a b : MessageRow) : bool :=
  String.leb (m_timestamp a) (m_timestamp b).

(** [SELECT ... FROM messages WHERE session_id = ? ORDER BY timestamp ASC] *)
Definition sql_select_messages (conn : Connection) (id : string)
  : DB (list MessageRow) :=
  fun st =>
    (Return (order_by ts_asc (List.filter (of_session id) (messages st))),
     log (SELECT_messages id) st).

(** [DELETE FROM sessions WHERE id = ?]; the child rows go with the parent
    when the connection enforces foreign keys, and stay otherwise. *)
Definition sql_delete_session (conn : Connection) (id : string) : DB unit :=
  fun st =>
    (Return tt,
     log (DELETE_session id)
       {| sessions := delete id (sessions st);
          messages :=
            if foreign_keys conn && bool_decide (is_Some (sessions st !! id))
            then List.filter (fun m => negb (of_session id m)) (messages st)
            else messages st;
          sqlite_sequence := sqlite_sequence st;
          journal := journal st |}).

(** A row of [messages m JOIN sessions s ON m.session_id = s.id]. *)
Definition join_sessions (ss : gmap string SessionRow) (m : MessageRow)
  : option (MessageRow * SessionRow) :=
  match ss !! m_session_id m with
  | Some s => Some (m, s)
  | None => None
  end.

Definition ts_desc (a b : MessageRow * SessionRow) : bool :=
  String.leb (m_timestamp (fst b)) (m_timestamp (fst a)).

Definition sql_select_search (conn : Connection) (pattern : string) (limit : Z)
  : DB (list (MessageRow * SessionRow)) :=
  fun st =>
    let joined := omap (join_sessions (sessions st)) (messages st) in
    let matching := List.filter (fun r => like pattern (m_content (fst r))) joined in
    (Return (sql_limit limit (order_by ts_desc matching)),
     log (SELECT_search pattern limit) st).

(** *** The methods *)

(** [create_session(self, session_id, title=None)] *)
Definition create_session (session_id : string) (title : option string)
  : DB unit :=
  let conn := connect in
  sql_insert_session conn session_id (py_or (default EmptyString title) "New Chat").

Definition get_session (session_id : string) : DB (option SessionDict) :=
  let conn := connect in
  row ← sql_select_session conn session_id;
  match row with
  | Some r =>
      mret (Some {| d_id := session_id; d_created_at := s_created_at r;
                    d_updated_at := s_updated_at r; d_title := s_title r;
                    d_model_name := s_model_name r |})
  | None => mret None
  end.

(** [content[:50] + '...' if len(content) > 50 else content] *)
Definition auto_title (content : string) : string :=
  if (50 <? String.length content)%nat
  then slice_to 50 content +:+ "..."
  else content.

(** [add_message(self, session_id, sender, content, formatted_content=None)] *)
Definition add_message (session_id sender content : string)
    (formatted_content : option string) : DB unit :=
  let conn := connect in
  sql_insert_message conn session_id sender content formatted_content;;
  sql_update_updated_at conn session_id;;
  if String.eqb sender "user"
  then sql_update_title conn (auto_title content) session_id
  else mret tt.

Definition message_dict (row : MessageRow) : MessageDict :=
  {| d_sender := m_sender row; d_content := m_content row;
     d_formatted_content := m_formatted_content row;
     d_timestamp := m_timestamp row |}.

Definition get_messages (session_id : string) : DB (list MessageDict) :=
  let conn := connect in
  rows ← sql_select_messages conn session_id;
  mret (message_dict <$> rows).

Definition delete_session (session_id : string) : DB unit :=
  let conn := connect in
  sql_delete_session conn session_id.

Definition hit (r : MessageRow * SessionRow) : Hit :=
  {| h_session_id := m_session_id (fst r); h_session_title := s_title (snd r);
     h_sender := m_sender (fst r); h_content := m_content (fst r);
     h_timestamp := m_timestamp (fst r) |}.

(** [search_messages(self, query, limit=50)] *)
Definition search_messages (query : string) (limit : Z) : DB (list Hit) :=
  let conn := connect in
  rows ← sql_select_search conn ("%" +:+ query +:+ "%") limit;
  mret (hit <$> rows).

Definition search_messages_default (query : string) : DB (list Hit) :=
  search_messages query 50.

End WithClock.

Section Exporting.

(** [json.dumps(_, indent=2)], which the model does not look into. *)
Variable json_dumps : json -> string.

Definition session_json (d : SessionDict) : json :=
  JDict [("id", JStr (d_id d)); ("created_at", JStr (d_created_at d));
         ("updated_at", JStr (d_updated_at d)); ("title", JStr (d_title d));
         ("model_name", JStr (d_model_name d))].

Definition message_json (d : MessageDict) : json :=
  JDict [("sender", JStr (d_sender d)); ("content", JStr (d_content d));
         ("formatted_content", from_option JStr JNull (d_formatted_content d));
         ("timestamp", JStr (d_timestamp d))].

(** The body of the loop over [messages]. *)
Definition transcript_line (text : string) (msg : MessageDict) : string :=
  let text :=
    text +:+ upper (d_sender msg) +:+ " [" +:+ d_timestamp msg +:+ "]:" +:+ nl in
  text +:+ d_content msg +:+ nl +:+ nl.

(** [export_session(self, session_id, format='json')] *)
Definition export_session (session_id format : string) : DB string :=
  session ← get_session session_id;
  messages ← get_messages session_id;
  if String.eqb format "json" then
    mret (json_dumps
            (JDict [("session", from_option session_json JNull session);
                    ("messages", JList (message_json <$> messages))]))
  else if String.eqb format "txt" then
    match session with
    | None => raise (TypeError "'NoneType' object is not subscriptable")
    | Some s =>
        let text := "Chat Session: " +:+ d_title s +:+ nl in
        let text := text +:+ "Created: " +:+ d_created_at s +:+ nl in
        let text := text +:+ "Model: " +:+ d_model_name s +:+ nl in
        let text := text +:+ repeat_char "=" 50 +:+ nl +:+ nl in
        mret (fold_left transcript_line messages text)
    end
  else raise (ValueError ("Unsupported format: " +:+ format)).

End Exporting.

End database.

(** ** [utils.py] *)

Module utils.

(** The document tree of an HTML fragment. *)
Inductive node : Type :=
  | Text (s : string)
  | Comment (s : string)
  | Element (tag : string) (attrs : list (string * string)) (children : list node).

Definition ALLOWED_TAGS : list string :=
  ["p"; "br"; "strong"; "em"; "u"; "h1"; "h2"; "h3"; "h4"; "h5"; "h6";
   "blockquote"; "code"; "pre"; "hr"; "div"; "span"; "ul"; "ol"; "li";
   "table"; "thead"; "tbody"; "tr"; "th"; "td"; "a"; "img"].

Definition ALLOWED_ATTRIBUTES : list (string * list string) :=
  [("a", ["href"; "title"; "target"]);
   ("img", ["src"; "alt"; "title"; "width"; "height"]);
   ("code", ["class"]);
   ("pre", ["class"]);
   ("span", ["class"]);
   ("div", ["class"])].

(** [d.get(k, [])] on a dictionary written as its list of items. *)
Fixpoint dict_get (d : list (string * list string)) (k : string) : list string :=
  match d with
  | [] => []
  | (k', v) :: d' => if String.eqb k' k then v else dict_get d' k
  end.

Definition mem (x : string) (l : list string) : bool :=
  existsb (String.eqb x) l.

Definition dquote : string := String (ascii_of_nat 34) EmptyString.

Definition show_attr (a : string * string) : string :=
  " " +:+ fst a +:+ "=" +:+ dquote +:+ snd a +:+ dquote.

Definition start_tag (tag : string) (attrs : list (string * string)) : string :=
  "<" +:+ tag +:+ String.concat EmptyString (show_attr <$> attrs) +:+ ">".

Definition end_tag (tag : string) : string := "</" +:+ tag +:+ ">".

Section Bleach.

(** The sanitizer and the renderer are libraries, [bleach] and [markdown],
    whose code is not part of the repository; they work on text, and the
    model works on the tree that the text stands for. *)

(** The scheme of an address, when it has one. *)
Variable uri_scheme : string -> option string.

Definition ALLOWED_PROTOCOLS : list string := ["http"; "https"; "mailto"].

Definition attr_val_is_uri : list string :=
  ["href"; "src"; "cite"; "action"; "longdesc"; "poster"; "background";
   "datasrc"; "dynsrc"; "lowsrc"; "ping"].

Definition uri_ok (val : string) : bool :=
  match uri_scheme val with
  | None => true
  | Some scheme => mem scheme ALLOWED_PROTOCOLS
  end.

(** Modelled from the spec: the attribute filter of [bleach.clean], whose
    code is missing. An attribute stays when it is listed for its tag (or
    under the key [*]); the library also drops a link-valued attribute
    whose address has a scheme outside its default protocols. *)
Definition allow_attr (attributes : list (string * list string))
    (tag : string) (a : string * string) : bool :=
  (mem (fst a) (dict_get attributes tag) || mem (fst a) (dict_get attributes "*"))
  && (negb (mem (fst a) attr_val_is_uri) || uri_ok (snd a)).

(** Modelled from the spec: one node under [bleach.clean], whose code is
    missing. The spec has the rendered HTML stripped down to an allow-list
    of tags and, per tag, an allow-list of attributes: a tag that is not
    listed is removed and its inner text kept. Without [strip] the library
    escapes such a tag and passes it through as text. Comments go. *)
Fixpoint clean_node (tags : list string) (attributes : list (string * list string))
    (strip : bool) (n : node) : list node :=
  match n with
  | Text s => [Text s]
  | Comment _ => []
  | Element tag attrs children =>
      let inner := flat_map (clean_node tags attributes strip) children in
      if mem tag tags then
        [Element tag (List.filter (allow_attr attributes tag) attrs) inner]
      else if strip then inner
      else Text (start_tag tag attrs) :: inner ++ [Text (end_tag tag)]
  end.

(** Modelled from the spec: [bleach.clean(html, tags=, attributes=,
    strip=)], whose code is missing, on the tree of [html]. *)
Definition bleach_clean (html : list node) (tags : list string)
    (attributes : list (string * list string)) (strip : bool) : list node :=
  flat_map (clean_node tags attributes strip) html.

(** [md.convert(text)] with the ten extensions of the source, read as the
    tree of the HTML it returns. *)
Variable md_convert : string -> list node.

(** The tree of the HTML that [format_message] returns. *)
Definition format_message_tree (text : string) : list node :=
  let html := md_convert text in
  bleach_clean html ALLOWED_TAGS ALLOWED_ATTRIBUTES true.

(** The serializer that writes the cleaned tree back as text. *)
Variable serialize : list node -> string.

Definition format_message (text : string) : string :=
  serialize (format_message_tree text).

End Bleach.

End utils.

(** ** [app.py] *)

Module app.

(** One entry of the history handed to the provider. *)
Record Turn : Type := mkTurn { role : string; parts : list string }.

(** The process: the database behind [db] and the dictionary
    [chat_sessions], each live chat standing for the history it holds. *)
Record App : Type := mkApp {
  db : Store;
  chat_sessions : gmap string (list Turn)
}.

Inductive Response : Type :=
  | Jsonify (body : json) (status : Z)
  | SendFile (data mimetype download_name : string).

Definition Handler (A : Type) : Type := App -> outcome A * App.

#[global] Instance Handler_ret : MRet Handler := fun A a st => (Return a, st).

#[global] Instance Handler_bind : MBind Handler := fun A B k m st =>
  match m st with
  | (Return a, st') => k a st'
  | (Raise e, st') => (Raise e, st')
  end.

(** A call of a method of [db]. *)
Definition call {A} (m : DB A) : Handler A :=
  fun st =>
    let '(r, d) := m (db st) in
    (r, {| db := d; chat_sessions := chat_sessions st |}).

(** [try: ... except Exception as e: return jsonify({'error': str(e)}), 500] *)
Definition try_except (m : Handler Response) : App -> Response * App :=
  fun st =>
    match m st with
    | (Return r, st') => (r, st')
    | (Raise e, st') => (Jsonify (JDict [("error", JStr (str_exn e))]) 500, st')
    end.

(** [data.get(key, fallback)] on a body whose fields are strings. *)
Definition get (data : gmap string string) (key fallback : string) : string :=
  default fallback (data !! key).

Definition hit_json (h : database.Hit) : json :=
  JDict [("session_id", JStr (database.h_session_id h));
         ("session_title", JStr (database.h_session_title h));
         ("sender", JStr (database.h_sender h));
         ("content", JStr (database.h_content h));
         ("timestamp", JStr (database.h_timestamp h))].

Section Dispatcher.

Variable clock : nat -> string.
Variable json_dumps : json -> string.
Variable format_message : string -> string.

(** [chat.send_message(text)] of the provider's chat object holding
    [history]: the reply, or the exception the call ends in. *)
Variable send_message : list Turn -> string -> outcome string.

Definition turn_of (msg : database.MessageDict) : Turn :=
  {| role := if String.eqb (database.d_sender msg) "user" then "user" else "model";
     parts := [database.d_content msg] |}.

Definition start_chat (session_id : string) (history : list Turn) : Handler unit :=
  fun st =>
    (Return tt,
     {| db := db st;
        chat_sessions := <[session_id := history]> (chat_sessions st) |}).

Definition chat_send (session_id text : string) : Handler string :=
  fun st =>
    let history := default [] (chat_sessions st !! session_id) in
    match send_message history text with
    | Return reply =>
        let history' :=
          (history ++ [ {| role := "user"; parts := [text] |};
                        {| role := "model"; parts := [reply] |} ])%list in
        (Return reply,
         {| db := db st;
            chat_sessions := <[session_id := history']> (chat_sessions st) |})
    | Raise e => (Raise e, st)
    end.

Definition known (session_id : string) : Handler bool :=
  fun st => (Return (bool_decide (is_Some (chat_sessions st !! session_id))), st).

Definition forget (session_id : string) : Handler unit :=
  fun st =>
    (Return tt,
     {| db := db st; chat_sessions := delete session_id (chat_sessions st) |}).

(** [POST /chat] *)
Definition chat (data : gmap string string) : App -> Response * App :=
  try_except (
    let user_message := get data "message" EmptyString in
    let session_id := get data "session_id" "default" in
    if falsy user_message then
      mret (Jsonify (JDict [("error", JStr "No message provided")]) 400)
    else
      live ← known session_id;
      (if (live : bool) then (mret tt : Handler unit)
       else
         session ← call (database.get_session session_id);
         (match session with
          | None => call (database.create_session clock session_id None)
          | Some _ => mret tt
          end : Handler unit);;
         messages ← call (database.get_messages session_id);
         start_chat session_id (turn_of <$> messages) : Handler unit);;
      call (database.add_message clock session_id "user" user_message None);;
      response ← chat_send session_id user_message;
      let formatted_response := format_message response in
      call (database.add_message clock session_id "assistant" response
              (Some formatted_response));;
      mret (Jsonify (JDict [("response", JStr formatted_response);
                            ("raw_response", JStr response);
                            ("session_id", JStr session_id)]) 200)).

(** [GET /sessions/<session_id>] *)
Definition get_session_history (session_id : string) : App -> Response * App :=
  try_except (
    session ← call (database.get_session session_id);
    match session with
    | None => mret (Jsonify (JDict [("error", JStr "Session not found")]) 404)
    | Some s =>
        messages ← call (database.get_messages session_id);
        mret (Jsonify (JDict [("session", database.session_json s);
                              ("messages",
                               JList (database.message_json <$> messages))]) 200)
    end).

(** [DELETE /sessions/<session_id>] *)
Definition delete_session (session_id : string) : App -> Response * App :=
  try_except (
    call (database.delete_session session_id);;
    forget session_id;;
    mret (Jsonify (JDict [("message", JStr "Session deleted successfully")]) 200)).

(** [POST /clear] *)
Definition clear_chat (data : gmap string string) : App -> Response * App :=
  try_except (
    let session_id := get data "session_id" "default" in
    call (database.delete_session session_id);;
    forget session_id;;
    mret (Jsonify (JDict [("message", JStr "Chat cleared successfully")]) 200)).

(** [POST /search] *)
Definition search (data : gmap string string) : App -> Response * App :=
  try_except (
    let query := get data "query" EmptyString in
    if falsy query then mret (Jsonify (JDict [("results", JList [])]) 200)
    else
      results ← call (database.search_messages query 50);
      mret (Jsonify (JDict [("results", JList (hit_json <$> results))]) 200)).

(** [GET /export/<session_id>/<format>]; [stamp] is
    [datetime.now().strftime('%Y%m%d_%H%M%S')]. *)
Definition export_session (stamp session_id format : string)
  : App -> Response * App :=
  try_except (
    if negb (utils.mem format ["json"; "txt"]) then
      mret (Jsonify (JDict [("error", JStr "Invalid format. Use json or txt")]) 400)
    else
      export_data ← call (database.export_session json_dumps session_id format);
      let filename :=
        "chat_export_" +:+ session_id +:+ "_" +:+ stamp +:+ "." +:+ format in
      mret (SendFile export_data
              (if String.eqb format "json" then "application/json" else "text/plain")
              filename)).

End Dispatcher.

End app.

(** * Vocabulary of the properties *)

Module spec.

Import database.

(** The title of a session, when the session exists. *)
Definition title_of (st : Store) (sid : string) : option string :=
  s_title <$> sessions st !! sid.

(** One call of [add_message]. *)
Record Call : Type := mkCall {
  c_session : string;
  c_sender : string;
  c_content : string;
  c_formatted : option string
}.

Definition append (clock : nat -> string) (c : Call) (st : Store) : Store :=
  snd (add_message clock (c_session c) (c_sender c) (c_content c)
         (c_formatted c) st).

(** The store after a sequence of calls of [add_message]. *)
Definition appends (clock : nat -> string) (calls : list Call) (st : Store)
  : Store :=
  fold_left (fun st c => append clock c st) calls st.

(** How many of the calls change the title of session [sid]. *)
Fixpoint changes (clock : nat -> string) (sid : string) (calls : list Call)
    (st : Store) : nat :=
  match calls with
  | [] => 0
  | c :: calls' =>
      let st' := append clock c st in
      ((if bool_decide (title_of st' sid = title_of st sid) then 0 else 1)
       + changes clock sid calls' st')%nat
  end.

(** The title the spec describes: the content itself up to 50 characters,
    its first 50 characters and an ellipsis beyond. *)
Definition truncated_title (content : string) : string :=
  if (String.length content <=? 50)%nat then content
  else String.substring 0 50 content +:+ "...".

(** Timestamps never decrease along the rows of [messages], that is, in
    the order in which the rows were inserted. *)
Definition chronological (st : Store) : Prop :=
  StronglySorted (leP ts_asc) (messages st).

(** Every message belongs to a session that exists. *)
Definition no_orphans (st : Store) : Prop :=
  Forall (fun m => is_Some (sessions st !! m_session_id m)) (messages st).

(** A clock that never steps back. *)
Definition monotone (clock : nat -> string) : Prop :=
  forall i j : nat, (i <= j)%nat -> String.leb (clock i) (clock j) = true.

(** The two queries that every call of [export_session] starts with. *)
Definition exported (sid : string) (st : Store) : Store :=
  log (SELECT_messages sid) (log (SELECT_session sid) st).

(** Every stored timestamp was read from the clock by a statement that
    has been executed. *)
Definition timed (clock : nat -> string) (st : Store) : Prop :=
  Forall (fun m => exists k : nat,
            (k < length (journal st))%nat /\ m_timestamp m = clock k)
    (messages st).

(** The calls that a client of [ChatDatabase] can make. *)
Inductive op : Type :=
  | Create (sid : string) (ttl : option string)
  | Add (c : Call)
  | Delete (sid : string)
  | GetSession (sid : string)
  | GetMessages (sid : string)
  | Search (query : string) (limit : Z).

Definition step (clock : nat -> string) (o : op) (st : Store) : Store :=
  match o with
  | Create sid ttl => snd (create_session clock sid ttl st)
  | Add c => append clock c st
  | Delete sid => snd (delete_session sid st)
  | GetSession sid => snd (get_session sid st)
  | GetMessages sid => snd (get_messages sid st)
  | Search query limit => snd (search_messages query limit st)
  end.

Definition run (clock : nat -> string) (ops : list op) (st : Store) : Store :=
  fold_left (fun st o => step clock o st) ops st.

(** Substring search without regard to the case of ASCII letters, as the
    spec describes the search. *)
Fixpoint prefix_nocase (q s : string) : bool :=
  match q, s with
  | EmptyString, _ => true
  | String _ _, EmptyString => false
  | String c q', String d s' => eq_nocase c d && prefix_nocase q' s'
  end.

Fixpoint contains_nocase (q s : string) : bool :=
  prefix_nocase q s
  || match s with
     | EmptyString => false
     | String _ s' => contains_nocase q s'
     end.

(** A joined row that the search is to return: a stored message, the
    session it belongs to, and the query inside the content. *)
Definition is_match (st : Store) (query : string)
    (r : MessageRow * SessionRow) : Prop :=
  fst r ∈ messages st
  /\ sessions st !! m_session_id (fst r) = Some (snd r)
  /\ contains_nocase query (m_content (fst r)) = true.

(** What a stored message says, apart from its rowid and timestamp. *)
Definition summary (m : MessageRow)
  : string * string * string * option string :=
  (m_session_id m, m_sender m, m_content m, m_formatted_content m).

(** A response that reports an error to the caller. *)
Definition is_error (r : app.Response) : bool :=
  match r with
  | app.Jsonify (JDict (("error", JStr _) :: _)) status => 400 <=? status
  | _ => false
  end.

(** The query holds neither of the two wildcards of [LIKE]. *)
Fixpoint no_wildcard (q : string) : bool :=
  match q with
  | EmptyString => true
  | String c q' =>
      negb (Ascii.eqb c "%") && negb (Ascii.eqb c "_") && no_wildcard q'
  end.

End spec.

(** The vocabulary of the formatter's guarantee. *)
Module markup.

Import utils.

Section NodeInduction.

Variable P : node -> Prop.
Hypothesis text_case : forall s, P (Text s).
Hypothesis comment_case : forall s, P (Comment s).
Hypothesis element_case :
  forall tag attrs children, Forall P children -> P (Element tag attrs children).

(** Induction on a tree, with the hypothesis for all children. *)
Fixpoint node_induction (n : node) : P n :=
  match n with
  | Text s => text_case s
  | Comment s => comment_case s
  | Element tag attrs children =>
      element_case tag attrs children
        ((fix all (l : list node) : Forall P l :=
            match l with
            | [] => List.Forall_nil P
            | x :: l' => @List.Forall_cons _ P x l' (node_induction x) (all l')
            end) children)
  end.

End NodeInduction.

Section Predicates.

Variable uri_scheme : string -> option string.

(** Every element of the tree has a listed tag, every attribute is listed
    for its tag, and every address has no scheme or a listed one. *)
Fixpoint allowed (tags : list string) (attributes : list (string * list string))
    (n : node) : bool :=
  match n with
  | Text _ => true
  | Comment _ => false
  | Element tag attrs children =>
      mem tag tags
      && forallb (fun a =>
                    (mem (fst a) (dict_get attributes tag)
                     || mem (fst a) (dict_get attributes "*"))
                    && (negb (mem (fst a) attr_val_is_uri)
                        || uri_ok uri_scheme (snd a))) attrs
      && forallb (allowed tags attributes) children
  end.

End Predicates.

(** What the renderer makes of [**bold**]. *)
Definition bold_html : list node :=
  [Element "p" [] [Element "strong" [] [Text "bold"]]].

End markup.

(** Concrete stores on which the properties are exercised. *)
Module sample.

Import database spec.

Definition digit (n : nat) : string :=
  String (ascii_of_nat (48 + n mod 10)) EmptyString.

(** A clock that advances one second per statement. *)
Definition clock (n : nat) : string :=
  "2024-01-01 00:" +:+ digit (n / 600) +:+ digit (n / 60) +:+ ":"
    +:+ digit (n mod 60 / 10) +:+ digit n.

(** A clock that is set back eight seconds after the third statement. *)
Definition clock_set_back (n : nat) : string :=
  if (n <? 3)%nat then "2024-01-01 00:00:09" else "2024-01-01 00:00:01".

Definition hi : Call :=
  {| c_session := "s1"; c_sender := "user"; c_content := "Hi";
     c_formatted := None |}.

Definition hello : Call :=
  {| c_session := "s1"; c_sender := "assistant"; c_content := "Hello there";
     c_formatted := Some "<p>Hello there</p>" |}.

Definition again : Call :=
  {| c_session := "s1"; c_sender := "user"; c_content := "And another thing";
     c_formatted := None |}.

(** A serializer that tells documents apart only by being called. *)
Definition dumps (doc : json) : string :=
  match doc with
  | JDict [(_, JNull); (_, JList [])] => "{session: null, messages: []}"
  | _ => "{...}"
  end.

(** A formatter and a provider for the dispatcher. *)
Definition format (text : string) : string := "<p>" +:+ text +:+ "</p>".

Definition provider (history : list app.Turn) (text : string) : outcome string :=
  Return "Hello there".

(** A process that has just started on an empty database. *)
Definition started : app.App :=
  {| app.db := init_database; app.chat_sessions := ∅ |}.

(** A renderer that passes hostile markup through, as a markdown
    renderer does with inline HTML. *)
Definition md_convert (text : string) : list utils.node :=
  if String.eqb text "**bold**" then markup.bold_html
  else
    [utils.Element "p" [("onclick", "steal()")]
       [utils.Text text;
        utils.Element "script" [] [utils.Text "alert(1)"];
        utils.Element "a" [("href", "javascript:alert(1)"); ("title", "t")]
          [utils.Text "link"];
        utils.Comment "note"]].

Definition uri_scheme (val : string) : option string :=
  if String.prefix "javascript:" val then Some "javascript"
  else if String.prefix "https:" val then Some "https"
  else if String.prefix "http:" val then Some "http"
  else None.

(** Session [s1], just created. *)
Definition created : Store :=
  snd (create_session clock "s1" None init_database).

(** Session [s1] after one exchange. *)
Definition exchanged : Store := appends clock [hi; hello] created.

End sample.

(** ** [database.py]: [get_all_sessions] *)

Module listing.

Import database.

Record ListingDict : Type := mkListing {
  l_id : string;
  l_created_at : string;
  l_updated_at : string;
  l_title : string;
  l_model_name : string;
  l_message_count : nat
}.

Section Scan.

(** The order in which the engine scans the table [sessions]; the map of
    sessions does not record it. *)
Variable scan : gmap string SessionRow -> list (string * SessionRow).

(** [ORDER BY updated_at DESC] *)
Definition updated_desc (a b : string * SessionRow) : bool :=
  String.leb (s_updated_at (snd b)) (s_updated_at (snd a)).

(** The subquery that counts the rows of [messages] with
    [session_id = sessions.id]. *)
Definition message_count (st : Store) (id : string) : nat :=
  length (List.filter (of_session id) (messages st)).

(** [get_all_sessions(self, limit=50)], as the list it returns on a state
    of the file. *)
Definition get_all_sessions (limit : Z) (st : Store) : list ListingDict :=
  (fun r : string * SessionRow =>
     {| l_id := fst r; l_created_at := s_created_at (snd r);
        l_updated_at := s_updated_at (snd r); l_title := s_title (snd r);
        l_model_name := s_model_name (snd r);
        l_message_count := message_count st (fst r) |})
    <$> sql_limit limit (order_by updated_desc (scan (sessions st))).

End Scan.

End listing.

(** ** [app.py]: the routes that only read *)

Module routes.

Import app.

(** An entry of the provider's catalogue, by the fields the route reads. *)
Record Model : Type := mkModel {
  name : string;
  display_name : string;
  description : string;
  supported_generation_methods : list string
}.

Definition model_json (m : Model) : json :=
  JDict [("name", JStr (name m)); ("display_name", JStr (display_name m));
         ("description", JStr (description m))].

Section Routes.

Variable format_message : string -> string.

(** [genai.list_models()], read to its end: the catalogue, or the
    exception the provider ends in. *)
Variable genai_list_models : outcome (list Model).

(** [POST /format-preview] *)
Definition format_preview (data : gmap string string) : App -> Response * App :=
  try_except (
    let text := get data "text" EmptyString in
    let formatted := format_message text in
    mret (Jsonify (JDict [("formatted", JStr formatted)]) 200)).

(** [GET /models] *)
Definition list_models : App -> Response * App :=
  try_except (
    catalogue ← (fun st => (genai_list_models, st)) : Handler (list Model);
    let models :=
      model_json
        <$> List.filter
              (fun m => utils.mem "generateContent"
                          (supported_generation_methods m)) catalogue in
    mret (Jsonify (JDict [("models", JList models)]) 200)).

End Routes.

End routes.

(** ** [app.py]: the body of a POST request *)

Module requests.

Import app.

(** What [data = request.json] and the first [data.get] make of a request:
    [request.json] raises (no JSON content type, text that is not JSON)
    with [str(e)] the text carried; or the body is JSON but no object
    (the type named is [NoneType] for [null], [list], [str], [int],
    [float], [bool]), so that [data.get] raises [AttributeError]; or the
    body is an object, here with strings for values. *)
Inductive Body : Type :=
  | Unreadable (text : string)
  | NotObject (type_name : string)
  | Object (data : gmap string string).

(** A route that starts with [data = request.json] inside its [try]; an
    exception raised there is answered by the [except] clause. *)
Definition on_request (body : Body)
    (route : gmap string string -> App -> Response * App)
  : App -> Response * App :=
  match body with
  | Unreadable text =>
      fun st => (Jsonify (JDict [("error", JStr text)]) 500, st)
  | NotObject type_name =>
      fun st =>
        (Jsonify
           (JDict [("error",
                    JStr ("'" +:+ type_name
                          +:+ "' object has no attribute 'get'"))]) 500,
         st)
  | Object data => route data
  end.

Section Posts.

Variable clock : nat -> string.
Variable format_message : string -> string.
Variable send_message : list Turn -> string -> outcome string.

(** [POST /chat] *)
Definition post_chat (body : Body) : App -> Response * App :=
  on_request body (chat clock format_message send_message).

(** [POST /search] *)
Definition post_search (body : Body) : App -> Response * App :=
  on_request body search.

(** [POST /clear] *)
Definition post_clear (body : Body) : App -> Response * App :=
  on_request body clear_chat.

End Posts.

End requests.

(** Further concrete cases. *)
Module cases.

(** A provider that is out of quota. *)
Definition down (history : list app.Turn) (text : string) : outcome string :=
  Raise (ProviderError "quota exceeded").

(** A catalogue with one model that generates content and one that does
    not. *)
Definition catalogue : list routes.Model :=
  [ {| routes.name := "models/gemini-2.5-pro";
       routes.display_name := "Gemini 2.5 Pro";
       routes.description := "chat";
       routes.supported_generation_methods :=
         ["generateContent"; "countTokens"] |};
    {| routes.name := "models/embedding-001";
       routes.display_name := "Embedding 001";
       routes.description := "embeddings";
       routes.supported_generation_methods := ["embedContent"] |} ].

(** The process after one exchange in session [s1]. *)
Definition talked : app.App :=
  snd (app.chat sample.clock sample.format sample.provider
         {[ "message" := "Hi"; "session_id" := "s1" ]} sample.started).

End cases.

(** Further vocabulary of the formatter. *)
Module markup_more.

Import utils.

(** The tags for which [ALLOWED_ATTRIBUTES] lists attributes. *)
Definition attributed : list string := fst <$> ALLOWED_ATTRIBUTES.

(** Every element of the tree either has one of the tags with listed
    attributes or carries no attribute at all. *)
Fixpoint bare_unless_listed (n : node) : bool :=
  match n with
  | Text _ | Comment _ => true
  | Element tag attrs children =>
      (mem tag attributed || match attrs with [] => true | _ :: _ => false end)
      && forallb bare_unless_listed children
  end.

End markup_more.

(** Vocabulary of the further properties. *)
Module frame.

(** Two states of the file with the same content: the journal apart. *)
Definition same_tables (a b : Store) : Prop :=
  sessions a = sessions b
  /\ messages a = messages b
  /\ sqlite_sequence a = sqlite_sequence b.

(** Two states of the process with the same tables and the same chats. *)
Definition same_state (a b : app.App) : Prop :=
  same_tables (app.db a) (app.db b)
  /\ app.chat_sessions a = app.chat_sessions b.

(** The title [create_session] stores for its optional argument. *)
Definition stored_title (ttl : option string) : string :=
  match ttl with
  | None => "New Chat"
  | Some EmptyString => "New Chat"
  | Some t => t
  end.

(** A string with its letters [a] to [z] replaced by [A] to [Z]; every
    other character stays as it is. *)
Fixpoint ascii_upper (s : string) : string :=
  match s with
  | EmptyString => EmptyString
  | String c s' => String (upper_char c) (ascii_upper s')
  end.

End frame.

(** * Properties *)

(** ** The monad and the engine *)

Section Sorting.

Context {A : Type} (le : A -> A -> bool).

Hypothesis le_total : forall x y, le x y = true \/ le y x = true.

Lemma insert_by_hd (x a : A) (l : list A) :
  leP le a x -> HdRel (leP le) a l -> HdRel (leP le) a (insert_by le x l).
Proof.
  intros Hax Hl. destruct l as [|y l]; simpl.
  - constructor. exact Hax.
  - inversion_clear Hl. destruct (le x y); constructor; assumption.
Qed.

Lemma insert_by_sorted (x : A) (l : list A) :
  Sorted (leP le) l -> Sorted (leP le) (insert_by le x l).
Proof.
  induction 1 as [|y l Hl IH Hhd]; simpl.
  - repeat constructor.
  - destruct (le x y) eqn:Hxy.
    + constructor; [constructor; assumption|]. constructor. exact Hxy.
    + constructor; [exact IH|]. apply insert_by_hd; [|exact Hhd].
      destruct (le_total x y) as [H|H]; [congruence|exact H].
Qed.

Lemma order_by_sorted (l : list A) : Sorted (leP le) (order_by le l).
Proof.
  induction l as [|x l IH]; simpl; [constructor|].
  apply insert_by_sorted, IH.
Qed.

End Sorting.

Section SortingFacts.

Context {A : Type} (le : A -> A -> bool).

Lemma insert_by_perm (x : A) (l : list A) : insert_by le x l ≡ₚ x :: l.
Proof.
  induction l as [|y l IH]; simpl; [reflexivity|].
  destruct (le x y); [reflexivity|].
  rewrite IH. apply Permutation_swap.
Qed.

Lemma order_by_perm (l : list A) : order_by le l ≡ₚ l.
Proof.
  induction l as [|x l IH]; simpl; [reflexivity|].
  rewrite insert_by_perm, IH. reflexivity.
Qed.

(** A list already in order comes back as it is: ties keep scan order. *)
Lemma order_by_id (l : list A) : Sorted (leP le) l -> order_by le l = l.
Proof.
  induction 1 as [|x l Hl IH Hhd]; simpl; [reflexivity|].
  rewrite IH. destruct Hhd as [|y l' Hxy]; simpl; [reflexivity|].
  unfold leP in Hxy. rewrite Hxy. reflexivity.
Qed.

Lemma order_by_length (l : list A) : length (order_by le l) = length l.
Proof. apply Permutation_length, order_by_perm. Qed.

End SortingFacts.

(** ** The conversation store *)

Module database_facts.

Import database spec.

Ltac run_db := unfold mbind, mret, DB_bind, DB_ret; simpl.

Lemma get_session_eq (sid : string) (st : Store) :
  get_session sid st
  = (Return ((fun r => {| d_id := sid; d_created_at := s_created_at r;
                          d_updated_at := s_updated_at r; d_title := s_title r;
                          d_model_name := s_model_name r |})
               <$> sessions st !! sid),
     log (SELECT_session sid) st).
Proof.
  unfold get_session, sql_select_session. run_db.
  destruct (sessions st !! sid); reflexivity.
Qed.

Lemma get_messages_eq (sid : string) (st : Store) :
  get_messages sid st
  = (Return (message_dict
               <$> order_by ts_asc (List.filter (of_session sid) (messages st))),
     log (SELECT_messages sid) st).
Proof. reflexivity. Qed.

Lemma delete_session_eq (sid : string) (st : Store) :
  delete_session sid st
  = (Return tt,
     log (DELETE_session sid) (with_sessions (delete sid (sessions st)) st)).
Proof. reflexivity. Qed.

Lemma add_message_eq clock (sid snd txt : string) (fmt : option string)
    (st : Store) :
  add_message clock sid snd txt fmt st
  = let row := {| m_id := (sqlite_sequence st + 1)%N; m_session_id := sid;
                  m_sender := snd; m_content := txt;
                  m_formatted_content := fmt;
                  m_timestamp := clock (length (journal st)) |} in
    let touched :=
      alter (touch (clock (S (length (journal st))))) sid (sessions st) in
    (Return tt,
     {| sessions :=
          if String.eqb snd "user"
          then alter (retitle (auto_title txt)) sid touched else touched;
        messages := messages st ++ [row];
        sqlite_sequence := (sqlite_sequence st + 1)%N;
        journal :=
          journal st ++ INSERT_message sid snd txt fmt :: UPDATE_updated_at sid
            :: (if String.eqb snd "user"
                then [UPDATE_title (auto_title txt) sid] else []) |}).
Proof.
  unfold add_message, sql_insert_message, sql_update_updated_at,
    sql_update_title, now. run_db.
  rewrite length_app. simpl. rewrite Nat.add_1_r.
  destruct (String.eqb snd "user"); run_db; unfold log, with_sessions; simpl;
    rewrite <- ?app_assoc; reflexivity.
Qed.

Lemma title_of_touch t sid sid' (ss : gmap string SessionRow) :
  s_title <$> alter (touch t) sid' ss !! sid = s_title <$> ss !! sid.
Proof.
  destruct (decide (sid' = sid)) as [->|Hne].
  - rewrite lookup_alter_eq. destruct (ss !! sid); reflexivity.
  - rewrite lookup_alter_ne by exact Hne. reflexivity.
Qed.

(** What one call of [add_message] does to the title of any session. *)
Lemma add_message_title clock (sid' snd txt : string) (fmt : option string)
    (st : Store) (sid : string) :
  title_of (Datatypes.snd (add_message clock sid' snd txt fmt st)) sid
  = if bool_decide (sid' = sid) && String.eqb snd "user"
       && bool_decide (title_of st sid = Some "New Chat")
    then Some (auto_title txt) else title_of st sid.
Proof.
  rewrite add_message_eq. unfold title_of. simpl.
  destruct (String.eqb snd "user"); simpl.
  - case_bool_decide as Hs; simpl.
    + subst sid'. rewrite lookup_alter_eq, <- option_fmap_compose.
      pose proof (title_of_touch (clock (S (length (journal st)))) sid sid
                    (sessions st)) as Ht.
      rewrite lookup_alter_eq in *.
      destruct (sessions st !! sid) as [r|]; simpl in *.
      * unfold retitle. simpl.
        destruct (String.eqb_spec (s_title r) "New Chat") as [E|E];
          case_bool_decide; simpl; congruence.
      * reflexivity.
    + rewrite lookup_alter_ne by exact Hs. apply title_of_touch.
  - rewrite andb_false_r. simpl. apply title_of_touch.
Qed.

Lemma append_title clock (c : Call) (st : Store) (sid : string) :
  title_of (append clock c st) sid
  = if bool_decide (c_session c = sid) && String.eqb (c_sender c) "user"
       && bool_decide (title_of st sid = Some "New Chat")
    then Some (auto_title (c_content c)) else title_of st sid.
Proof. apply add_message_title. Qed.

Lemma substring_length (n : nat) (s : string) :
  (n <= String.length s)%nat -> String.length (String.substring 0 n s) = n.
Proof.
  revert s. induction n as [|n IH]; intros [|a s] Hle; simpl in *; try lia.
  rewrite IH by lia. reflexivity.
Qed.

Lemma append_length (a b : string) :
  String.length (a +:+ b) = (String.length a + String.length b)%nat.
Proof.
  induction a as [|x a IH]; simpl; [reflexivity|].
  rewrite IH. reflexivity.
Qed.

Lemma auto_title_length (txt : string) :
  auto_title txt = "New Chat" -> txt = "New Chat".
Proof.
  unfold auto_title. destruct (50 <? String.length txt)%nat eqn:Hlen; [|tauto].
  intros H. apply (f_equal String.length) in H. exfalso.
  apply Nat.ltb_lt in Hlen. revert H.
  unfold slice_to. rewrite append_length, substring_length by lia. simpl. lia.
Qed.

(** A title other than the default is out of reach of [add_message]. *)
Lemma append_frozen clock (c : Call) (st : Store) (sid : string) :
  title_of st sid <> Some "New Chat" ->
  title_of (append clock c st) sid = title_of st sid.
Proof.
  intros Hne. rewrite append_title.
  rewrite (bool_decide_eq_false_2 _ Hne), andb_false_r. reflexivity.
Qed.

Lemma appends_frozen clock (calls : list Call) (st : Store) (sid : string) :
  title_of st sid <> Some "New Chat" ->
  title_of (appends clock calls st) sid = title_of st sid.
Proof.
  revert st. induction calls as [|c calls IH]; intros st Hne; [reflexivity|].
  simpl. fold (appends clock calls (append clock c st)).
  rewrite IH; rewrite append_frozen by exact Hne; [reflexivity|exact Hne].
Qed.

Lemma changes_frozen clock (calls : list Call) (st : Store) (sid : string) :
  title_of st sid <> Some "New Chat" -> changes clock sid calls st = 0%nat.
Proof.
  revert st. induction calls as [|c calls IH]; intros st Hne; [reflexivity|].
  simpl. rewrite append_frozen by exact Hne.
  rewrite bool_decide_eq_true_2 by reflexivity.
  apply IH. rewrite append_frozen by exact Hne. exact Hne.
Qed.

(** A call that changes the title finds the default and leaves another. *)
Lemma append_changed clock (c : Call) (st : Store) (sid : string) :
  title_of (append clock c st) sid <> title_of st sid ->
  title_of st sid = Some "New Chat"
  /\ c_session c = sid /\ c_sender c = "user"
  /\ title_of (append clock c st) sid = Some (auto_title (c_content c))
  /\ title_of (append clock c st) sid <> Some "New Chat".
Proof.
  rewrite append_title.
  case_bool_decide as Hs; simpl; [|congruence].
  destruct (String.eqb_spec (c_sender c) "user") as [Hu|Hu]; simpl; [|congruence].
  case_bool_decide as Ht; simpl; [|congruence].
  intros Hne. repeat split; try assumption.
  intros [= E]. apply auto_title_length in E.
  apply Hne. rewrite Ht. unfold auto_title. rewrite E. reflexivity.
Qed.

Lemma changes_le_1 clock (calls : list Call) (st : Store) (sid : string) :
  (changes clock sid calls st <= 1)%nat.
Proof.
  revert st. induction calls as [|c calls IH]; intros st; simpl; [lia|].
  case_bool_decide as Hc; simpl; [apply IH|].
  apply append_changed in Hc as (_ & _ & _ & _ & Hne).
  rewrite changes_frozen by exact Hne. lia.
Qed.

(** C3. The title of a session changes at most once in any sequence of
    calls of [add_message], and a call changes it only while it is the
    default ['New Chat']: such a call is a user message of that session, it
    leaves the title derived from its content, and no later call of
    [add_message] changes the title again. *)
Theorem title_changes_at_most_once clock (st : Store) (sid : string)
    (history : list Call) (c : Call) (later : list Call) :
  (changes clock sid history st <= 1)%nat
  /\ (title_of (append clock c st) sid <> title_of st sid ->
      title_of st sid = Some "New Chat"
      /\ c_session c = sid /\ c_sender c = "user"
      /\ title_of (append clock c st) sid = Some (auto_title (c_content c))
      /\ title_of (appends clock later (append clock c st)) sid
         = Some (auto_title (c_content c))
      /\ changes clock sid later (append clock c st) = 0%nat).
Proof.
  split; [apply changes_le_1|].
  intros Hc. apply append_changed in Hc as (H0 & Hs & Hu & Ht & Hne).
  repeat split; try assumption.
  - rewrite appends_frozen by exact Hne. exact Ht.
  - apply changes_frozen. exact Hne.
Qed.

(** C8. When a user message sets the title of a session that still has the
    default title, the title becomes the content itself if the content has
    at most 50 characters, and otherwise the first 50 characters of the
    content followed by the ellipsis [...]. *)
Theorem first_user_message_title clock (st : Store) (sid content : string)
    (fmt : option string) :
  title_of st sid = Some "New Chat" ->
  let st' := snd (add_message clock sid "user" content fmt st) in
  title_of st' sid = Some (truncated_title content)
  /\ ((String.length content <= 50)%nat -> title_of st' sid = Some content)
  /\ ((50 < String.length content)%nat ->
      title_of st' sid = Some (String.substring 0 50 content +:+ "...")
      /\ String.length (String.substring 0 50 content) = 50%nat
      /\ String.prefix (String.substring 0 50 content) content = true).
Proof.
  intros Hdef st'.
  assert (Ht : title_of st' sid = Some (auto_title content)).
  { subst st'. rewrite add_message_title, Hdef.
    rewrite !bool_decide_eq_true_2 by reflexivity. reflexivity. }
  rewrite Ht. unfold auto_title, truncated_title, slice_to.
  destruct (Nat.ltb_spec 50 (String.length content)) as [Hlt|Hle].
  - rewrite (proj2 (Nat.leb_gt _ _) Hlt).
    split; [reflexivity|]. split; [lia|]. intros _.
    split; [reflexivity|].
    assert (Hlen : String.length (String.substring 0 50 content) = 50%nat)
      by (apply substring_length; lia).
    split; [exact Hlen|].
    apply String.prefix_correct. rewrite Hlen. reflexivity.
  - rewrite (proj2 (Nat.leb_le _ _) Hle).
    split; [reflexivity|]. split; [reflexivity|]. lia.
Qed.

Lemma first_user_message_title_witness :
  title_of sample.created "s1" = Some "New Chat"
  /\ title_of (snd (add_message sample.clock "s1" "user" "Hi" None
                      sample.created)) "s1" = Some "Hi".
Proof.
  assert (H : title_of sample.created "s1" = Some "New Chat") by reflexivity.
  split; [exact H|].
  exact (proj1 (first_user_message_title sample.clock sample.created "s1" "Hi"
                  None H)).
Defined.

Lemma title_changes_at_most_once_witness :
  title_of (append sample.clock sample.hi sample.created) "s1"
    <> title_of sample.created "s1"
  /\ title_of (appends sample.clock [sample.hello; sample.again]
                 (append sample.clock sample.hi sample.created)) "s1"
     = Some "Hi".
Proof.
  assert (H : title_of (append sample.clock sample.hi sample.created) "s1"
              <> title_of sample.created "s1") by (vm_compute; discriminate).
  split; [exact H|].
  apply (title_changes_at_most_once sample.clock sample.created "s1" []
           sample.hi [sample.hello; sample.again]).
  exact H.
Defined.

(** The edge of C3: a first user message that reads ['New Chat'] leaves the
    default in place, and the next user message still sets the title. *)
Example title_after_default_text :
  let c1 := {| c_session := "s1"; c_sender := "user"; c_content := "New Chat";
               c_formatted := None |} in
  title_of (appends sample.clock [c1] sample.created) "s1" = Some "New Chat"
  /\ title_of (appends sample.clock [c1; sample.again] sample.created) "s1"
     = Some "And another thing".
Proof. vm_compute. split; reflexivity. Qed.

(** [delete_session] takes the session row away and no message with it. *)
Lemma delete_session_leaves_messages (st : Store) (sid : string) :
  let st' := snd (delete_session sid st) in
  sessions st' !! sid = None
  /\ messages st' = messages st
  /\ fst (get_messages sid st') = fst (get_messages sid st).
Proof.
  simpl. split; [apply lookup_delete_eq|]. split; reflexivity.
Qed.

(** On an absent id [delete_session] changes neither table. *)
Lemma delete_session_absent (st : Store) (sid : string) :
  sessions st !! sid = None ->
  let st' := snd (delete_session sid st) in
  sessions st' = sessions st /\ messages st' = messages st.
Proof.
  intros Hnone. simpl. split; [|reflexivity].
  apply delete_id. exact Hnone.
Qed.

(** C2. Deleting session [s1], which holds two messages, removes the
    session row, and [get_messages] on [s1] then still returns both
    messages: the cascade that the schema declares does not take place. *)
Theorem delete_session_keeps_messages :
  let st' := snd (delete_session "s1" sample.exchanged) in
  fst (get_session "s1" st') = Return None
  /\ fst (get_messages "s1" st')
     = Return [ {| d_sender := "user"; d_content := "Hi";
                   d_formatted_content := None;
                   d_timestamp := "2024-01-01 00:00:01" |};
                {| d_sender := "assistant"; d_content := "Hello there";
                   d_formatted_content := Some "<p>Hello there</p>";
                   d_timestamp := "2024-01-01 00:00:04" |} ].
Proof. vm_compute. split; reflexivity. Qed.

(** *** Pattern matching *)

Lemma like_percent (p s : string) :
  like (String "%" p) s
  = like p s || match s with
                | EmptyString => false
                | String _ s' => like (String "%" p) s'
                end.
Proof. destruct s; reflexivity. Qed.

Lemma like_any (s : string) : like "%" s = true.
Proof.
  induction s as [|c s IH]; rewrite like_percent; [reflexivity|].
  rewrite IH. apply orb_true_r.
Qed.

Lemma like_char (c : ascii) (p s : string) :
  Ascii.eqb c "%" = false ->
  like (String c p) s
  = match s with
    | EmptyString => false
    | String d s' => (Ascii.eqb c "_" || eq_nocase c d) && like p s'
    end.
Proof. intros Hc. simpl. rewrite Hc. reflexivity. Qed.

Lemma like_prefix (q s : string) :
  no_wildcard q = true -> like (q +:+ "%") s = prefix_nocase q s.
Proof.
  revert s. induction q as [|c q IH]; intros s Hq; simpl in Hq.
  - apply like_any.
  - apply andb_prop in Hq as [Hq Hq']. apply andb_prop in Hq as [Hp Hu].
    apply negb_true_iff in Hp, Hu.
    change (String c q +:+ "%") with (String c (q +:+ "%")).
    rewrite like_char by exact Hp.
    destruct s as [|d s]; simpl; [reflexivity|].
    rewrite Hu, IH by exact Hq'. reflexivity.
Qed.

(** Without wildcards in the query, the pattern of [search_messages]
    matches exactly the contents that hold the query as a substring. *)
Lemma like_contains (q s : string) :
  no_wildcard q = true -> like ("%" +:+ q +:+ "%") s = contains_nocase q s.
Proof.
  intros Hq. change ("%" +:+ q +:+ "%") with (String "%" (q +:+ "%")).
  induction s as [|d s IH]; rewrite like_percent, like_prefix by exact Hq.
  - reflexivity.
  - rewrite IH. reflexivity.
Qed.

(** *** Searching *)

Lemma Sorted_take {A} (R : A -> A -> Prop) (n : nat) (l : list A) :
  Sorted R l -> Sorted R (take n l).
Proof.
  intros Hl. revert n. induction Hl as [|x l Hl IH Hhd]; intros [|n]; simpl;
    try constructor.
  - apply IH.
  - destruct Hhd as [|y l' Hxy]; destruct n; simpl; constructor. exact Hxy.
Qed.

Lemma ts_desc_total (a b : MessageRow * SessionRow) :
  ts_desc a b = true \/ ts_desc b a = true.
Proof. unfold ts_desc. apply String.leb_total. Qed.

Lemma ts_asc_total (a b : MessageRow) : ts_asc a b = true \/ ts_asc b a = true.
Proof. unfold ts_asc. apply String.leb_total. Qed.

Lemma search_messages_eq (query : string) (limit : Z) (st : Store) :
  search_messages query limit st
  = (Return
       (hit <$> sql_limit limit
          (order_by ts_desc
             (List.filter
                (fun r => like ("%" +:+ query +:+ "%") (m_content (fst r)))
                (omap (join_sessions (sessions st)) (messages st))))),
     log (SELECT_search ("%" +:+ query +:+ "%") limit) st).
Proof. reflexivity. Qed.

Lemma elem_of_joined (st : Store) (pattern : string)
    (r : MessageRow * SessionRow) :
  r ∈ order_by ts_desc
        (List.filter (fun r => like pattern (m_content (fst r)))
           (omap (join_sessions (sessions st)) (messages st)))
  <-> fst r ∈ messages st
      /\ sessions st !! m_session_id (fst r) = Some (snd r)
      /\ like pattern (m_content (fst r)) = true.
Proof.
  rewrite (order_by_perm ts_desc), list_elem_of_In, filter_In,
    <- list_elem_of_In, list_elem_of_omap.
  unfold join_sessions. split.
  - intros [(m & Hm & Hj) Hlike].
    destruct (sessions st !! m_session_id m) as [s|] eqn:Hs; [|discriminate].
    injection Hj as <-. simpl in *. auto.
  - intros (Hm & Hs & Hlike). split; [|exact Hlike].
    exists (fst r). split; [exact Hm|]. rewrite Hs. destruct r; reflexivity.
Qed.

(** Apart from the wildcards the search is the substring search of the
    spec: for a query without [%] and [_] and a limit from 0 up to the
    largest integer SQLite binds, [search_messages] returns only messages
    of existing sessions whose content holds the query as a substring,
    letters of ASCII compared without regard to case, each with the title
    of its session, most recent first and at most [limit] of them; when
    fewer than [limit] come back, every such message is among them. *)
Lemma search_without_wildcards (st : Store) (query : string) (limit : Z) :
  no_wildcard query = true ->
  0 <= limit < 2 ^ 63 ->
  exists rows : list (MessageRow * SessionRow),
    search_messages query limit st
    = (Return (hit <$> rows),
       log (SELECT_search ("%" +:+ query +:+ "%") limit) st)
    /\ Forall (is_match st query) rows
    /\ Sorted (leP ts_desc) rows
    /\ Z.of_nat (length rows) <= limit
    /\ (Z.of_nat (length rows) < limit ->
        forall r, is_match st query r -> r ∈ rows)
    /\ (limit = 50 ->
        search_messages_default query st = search_messages query limit st).
Proof.
  intros Hq [Hlim _]. rewrite search_messages_eq.
  unfold sql_limit. rewrite (proj2 (Z.ltb_ge limit 0) Hlim).
  set (all := order_by ts_desc _).
  exists (take (Z.to_nat limit) all). split; [reflexivity|].
  assert (Hall : forall r, r ∈ all <-> is_match st query r).
  { intros r. subst all. rewrite elem_of_joined, like_contains by exact Hq.
    reflexivity. }
  split; [|split; [|split; [|split]]].
  - apply Forall_forall. intros r Hr. apply Hall.
    eapply subseteq_take. exact Hr.
  - apply Sorted_take. subst all. apply order_by_sorted, ts_desc_total.
  - rewrite length_take. lia.
  - rewrite length_take. intros Hlt r Hr.
    rewrite take_ge by lia. apply Hall, Hr.
  - intros ->. reflexivity.
Qed.

(** C4. The query is put into the pattern of [LIKE] as it is, so a [_] or
    a [%] in it is a wildcard: with the default limit the query [e_l]
    returns the message ['Hello there'], whose content does not hold
    [e_l] as a substring, neither as written nor without regard to
    case. *)
Theorem search_messages_wildcard_match :
  fst (search_messages_default "e_l" sample.exchanged)
  = Return [ {| h_session_id := "s1"; h_session_title := "Hi";
                h_sender := "assistant"; h_content := "Hello there";
                h_timestamp := "2024-01-01 00:00:04" |} ]
  /\ contains_nocase "e_l" "Hello there" = false
  /\ String.index 0 "e_l" "Hello there" = None.
Proof. split; [vm_compute; reflexivity|]. split; reflexivity. Qed.

(** *** Reading a session back *)

Lemma StronglySorted_filter {A} (R : A -> A -> Prop) (f : A -> bool)
    (l : list A) :
  StronglySorted R l -> StronglySorted R (List.filter f l).
Proof.
  induction 1 as [|x l Hl IH Hx]; simpl; [constructor|].
  destruct (f x); [|exact IH]. constructor; [exact IH|].
  apply List.Forall_forall. intros y Hy. apply filter_In in Hy as [Hy _].
  revert y Hy. apply List.Forall_forall. exact Hx.
Qed.

(** What a call does to [messages] and to the journal. *)
Lemma step_messages clock (o : op) (st : Store) :
  (length (journal st) <= length (journal (step clock o st)))%nat
  /\ (messages (step clock o st) = messages st
      \/ exists row,
           messages (step clock o st) = (messages st ++ [row])%list
           /\ m_timestamp row = clock (length (journal st))
           /\ (length (journal st) < length (journal (step clock o st)))%nat).
Proof.
  destruct o as [sid ttl|c|sid|sid|sid|q lim]; simpl.
  - unfold create_session, sql_insert_session.
    destruct (sessions st !! sid); simpl; rewrite length_app; simpl;
      (split; [lia|left; reflexivity]).
  - unfold append. rewrite add_message_eq. simpl. rewrite length_app. simpl.
    split; [lia|]. right. eexists. split; [reflexivity|].
    split; [reflexivity|lia].
  - rewrite length_app. simpl. split; [lia|left; reflexivity].
  - rewrite get_session_eq. simpl. rewrite length_app. simpl.
    split; [lia|left; reflexivity].
  - rewrite length_app. simpl. split; [lia|left; reflexivity].
  - rewrite length_app. simpl. split; [lia|left; reflexivity].
Qed.

Lemma step_invariant clock (o : op) (st : Store) :
  monotone clock ->
  chronological st /\ timed clock st ->
  chronological (step clock o st) /\ timed clock (step clock o st).
Proof.
  intros Hmono [Hc Ht]. unfold chronological, timed in *.
  destruct (step_messages clock o st) as [Hlen [Heq|(row & Heq & Hrow & Hlt)]];
    rewrite Heq.
  - split; [exact Hc|].
    eapply Forall_impl; [exact Ht|]. intros m (k & Hk & Hm).
    exists k. split; [lia|exact Hm].
  - split.
    + apply StronglySorted_app. split; [|split; [exact Hc|]].
      * intros m r Hm Hr. apply list_elem_of_singleton in Hr as ->.
        rewrite Forall_forall in Ht. destruct (Ht m Hm) as (k & Hk & Hts).
        unfold leP, ts_asc. rewrite Hts, Hrow. apply Hmono. lia.
      * repeat constructor.
    + apply Forall_app. split.
      * eapply Forall_impl; [exact Ht|]. intros m (k & Hk & Hm).
        exists k. split; [lia|exact Hm].
      * constructor; [|constructor].
        exists (length (journal st)). split; [exact Hlt|exact Hrow].
Qed.

(** Under a clock that never steps back, whatever the clients call, the
    timestamps of the stored messages never decrease in insertion order. *)
Lemma run_chronological clock (ops : list op) :
  monotone clock -> chronological (run clock ops init_database).
Proof.
  intros Hmono.
  cut (forall st, chronological st /\ timed clock st ->
                  chronological (run clock ops st)).
  { intros H. apply H. split; constructor. }
  induction ops as [|o ops IH]; intros st Hst; [apply Hst|].
  simpl. apply IH, step_invariant; assumption.
Qed.

Lemma filter_unknown (st : Store) (sid : string) :
  no_orphans st -> sessions st !! sid = None ->
  List.filter (of_session sid) (messages st) = [].
Proof.
  unfold no_orphans. intros Horph Hnone.
  induction Horph as [|m l Hm Hl IH]; [reflexivity|].
  simpl. unfold of_session at 1.
  destruct (String.eqb_spec (m_session_id m) sid) as [E|E]; [|exact IH].
  rewrite E, Hnone in Hm. destruct Hm as [? [=]].
Qed.

(** C9, as amended. [get_messages] returns the messages of the session,
    each once, in non-decreasing order of timestamp. When the timestamps of
    the stored rows do not decrease in insertion order, which is the case
    after any calls made under a clock that never steps back, that is
    exactly the order in which the messages were inserted. For an unknown
    session id the result is empty as long as every stored message belongs
    to an existing session. *)
Theorem get_messages_order (st : Store) (sid : string) :
  exists rows : list MessageRow,
    get_messages sid st
    = (Return (message_dict <$> rows), log (SELECT_messages sid) st)
    /\ rows ≡ₚ List.filter (of_session sid) (messages st)
    /\ Sorted (leP ts_asc) rows
    /\ (chronological st -> rows = List.filter (of_session sid) (messages st))
    /\ (forall clock ops,
          monotone clock -> st = run clock ops init_database ->
          rows = List.filter (of_session sid) (messages st))
    /\ (no_orphans st -> sessions st !! sid = None -> rows = []).
Proof.
  exists (order_by ts_asc (List.filter (of_session sid) (messages st))).
  assert (Hchrono : chronological st ->
            order_by ts_asc (List.filter (of_session sid) (messages st))
            = List.filter (of_session sid) (messages st)).
  { intros Hc. apply order_by_id, StronglySorted_Sorted, StronglySorted_filter.
    exact Hc. }
  split; [apply get_messages_eq|]. split; [apply order_by_perm|].
  split; [apply order_by_sorted, ts_asc_total|]. split; [exact Hchrono|].
  split.
  - intros clock ops Hmono ->. apply Hchrono, run_chronological, Hmono.
  - intros Horph Hnone. rewrite filter_unknown by assumption. reflexivity.
Qed.

Lemma get_messages_order_witness :
  chronological sample.exchanged
  /\ no_orphans sample.exchanged
  /\ sessions sample.exchanged !! "s2" = None
  /\ fst (get_messages "s1" sample.exchanged)
     = Return (message_dict
                 <$> List.filter (of_session "s1") (messages sample.exchanged))
  /\ fst (get_messages "s2" sample.exchanged) = Return [].
Proof.
  assert (Hc : chronological sample.exchanged).
  { unfold chronological. vm_compute messages. repeat constructor. }
  assert (Ho : no_orphans sample.exchanged).
  { unfold no_orphans. vm_compute messages. repeat constructor; simpl; eauto. }
  assert (Hn : sessions sample.exchanged !! "s2" = None) by reflexivity.
  split; [exact Hc|]. split; [exact Ho|]. split; [exact Hn|]. split.
  - destruct (get_messages_order sample.exchanged "s1")
      as (rows & Heq & _ & _ & Hrows & _).
    rewrite Heq, (Hrows Hc). reflexivity.
  - destruct (get_messages_order sample.exchanged "s2")
      as (rows & Heq & _ & _ & _ & _ & Hrows).
    rewrite Heq, (Hrows Ho Hn). reflexivity.
Defined.

(** The claim C9 fails when the clock is set back between two inserts: the
    message inserted second is returned first. *)
Lemma get_messages_after_clock_set_back :
  let st := appends sample.clock_set_back [sample.hi; sample.hello]
              (snd (create_session sample.clock_set_back "s1" None
                      init_database)) in
  m_content <$> messages st = ["Hi"; "Hello there"]
  /\ fst (get_messages "s1" st)
     = Return [ {| d_sender := "assistant"; d_content := "Hello there";
                   d_formatted_content := Some "<p>Hello there</p>";
                   d_timestamp := "2024-01-01 00:00:01" |};
                {| d_sender := "user"; d_content := "Hi";
                   d_formatted_content := None;
                   d_timestamp := "2024-01-01 00:00:09" |} ].
Proof. vm_compute. split; reflexivity. Qed.

End database_facts.

(** ** Export *)

Module export_facts.

Import database spec database_facts.

Lemma export_session_eq json_dumps (sid format : string) (st : Store) :
  export_session json_dumps sid format st
  = let session :=
      (fun r => {| d_id := sid; d_created_at := s_created_at r;
                   d_updated_at := s_updated_at r; d_title := s_title r;
                   d_model_name := s_model_name r |}) <$> sessions st !! sid in
    let messages :=
      message_dict
        <$> order_by ts_asc (List.filter (of_session sid) (messages st)) in
    (if String.eqb format "json" then
       Return (json_dumps
                 (JDict [("session", from_option session_json JNull session);
                         ("messages", JList (message_json <$> messages))]))
     else if String.eqb format "txt" then
       match session with
       | None => Raise (TypeError "'NoneType' object is not subscriptable")
       | Some s =>
           let text := "Chat Session: " +:+ d_title s +:+ nl in
           let text := text +:+ "Created: " +:+ d_created_at s +:+ nl in
           let text := text +:+ "Model: " +:+ d_model_name s +:+ nl in
           let text := text +:+ repeat_char "=" 50 +:+ nl +:+ nl in
           Return (fold_left transcript_line messages text)
       end
     else Raise (ValueError ("Unsupported format: " +:+ format)),
     exported sid st).
Proof.
  unfold export_session. unfold mbind at 1, DB_bind at 1.
  rewrite get_session_eq. unfold mbind at 1, DB_bind at 1.
  rewrite get_messages_eq. simpl.
  destruct (String.eqb format "json"); [reflexivity|].
  destruct (String.eqb format "txt"); [|reflexivity].
  destruct (sessions st !! sid); reflexivity.
Qed.


(** C6. For an id that is absent from a store without orphaned messages,
    exporting as [json] yields the document with a null session and no
    messages, while exporting as [txt] ends in a [TypeError]: the two
    formats do not behave alike. *)
Theorem export_session_absent json_dumps (st : Store) (sid : string) :
  sessions st !! sid = None ->
  no_orphans st ->
  fst (export_session json_dumps sid "json" st)
  = Return (json_dumps (JDict [("session", JNull); ("messages", JList [])]))
  /\ fst (export_session json_dumps sid "txt" st)
     = Raise (TypeError "'NoneType' object is not subscriptable").
Proof.
  intros Hnone Horph. rewrite !export_session_eq. simpl.
  rewrite Hnone, filter_unknown by assumption. split; reflexivity.
Qed.

Lemma export_session_absent_witness :
  sessions init_database !! "missing" = None
  /\ no_orphans init_database
  /\ fst (export_session sample.dumps "missing" "json" init_database)
     = Return "{session: null, messages: []}"
  /\ fst (export_session sample.dumps "missing" "txt" init_database)
     = Raise (TypeError "'NoneType' object is not subscriptable").
Proof.
  assert (Hn : sessions init_database !! "missing" = None) by reflexivity.
  assert (Ho : no_orphans init_database) by constructor.
  split; [exact Hn|]. split; [exact Ho|].
  exact (export_session_absent sample.dumps init_database "missing" Hn Ho).
Defined.

(** With any other format the method reads the session and its messages
    and only then raises. *)
Lemma export_session_unsupported json_dumps (st : Store) (sid format : string) :
  format <> "json" -> format <> "txt" ->
  export_session json_dumps sid format st
  = (Raise (ValueError ("Unsupported format: " +:+ format)), exported sid st).
Proof.
  intros Hj Ht. rewrite export_session_eq. simpl.
  rewrite (proj2 (String.eqb_neq _ _) Hj), (proj2 (String.eqb_neq _ _) Ht).
  reflexivity.
Qed.

(** The claim C7 fails for the method of the store: on the format [xml]
    it has sent two queries to the database by the time it raises. *)
Lemma export_session_reads_first :
  export_session sample.dumps "s1" "xml" init_database
  = (Raise (ValueError "Unsupported format: xml"),
     {| sessions := ∅; messages := []; sqlite_sequence := 0%N;
        journal := [SELECT_session "s1"; SELECT_messages "s1"] |})
  /\ journal init_database = [].
Proof. split; reflexivity. Qed.

End export_facts.

(** ** The request dispatcher *)

Module app_facts.

Import database spec database_facts export_facts app requests.

Lemma call_eq {A} (m : DB A) (st : App) :
  call m st
  = (fst (m (db st)),
     {| db := snd (m (db st)); chat_sessions := chat_sessions st |}).
Proof. unfold call. destruct (m (db st)). reflexivity. Qed.

(** A missing or empty [message] is answered with status 400 and leaves
    the process as it was. *)
Lemma chat_no_message clock format_message send_message
    (data : gmap string string) (st : App) :
  falsy (get data "message" EmptyString) = true ->
  chat clock format_message send_message data st
  = (Jsonify (JDict [("error", JStr "No message provided")]) 400, st).
Proof. intros H. unfold chat, try_except. rewrite H. reflexivity. Qed.

(** A missing or empty [query] is answered with an empty result list. *)
Lemma search_no_query (data : gmap string string) (st : App) :
  falsy (get data "query" EmptyString) = true ->
  search data st = (Jsonify (JDict [("results", JList [])]) 200, st).
Proof. intros H. unfold search, try_except. rewrite H. reflexivity. Qed.

(** C5, as amended. A [/chat] request whose body is a JSON object, with
    strings for values, in which the message is missing or empty is
    rejected with the error ['No message provided'] and status 400. A
    [/search] request whose body is such an object in which the query is
    missing or empty is not an error: it is answered with status 200 and
    an empty list of results. A
    [/chat] or [/search] request whose body cannot be read as JSON, or is
    JSON but no object, is answered by the [except] clause with status 500
    and the text of the exception. Nothing is mutated in any of these
    cases. *)
Theorem missing_field_responses clock format_message send_message
    (chat_data search_data : gmap string string) (text type_name : string)
    (st : App) :
  falsy (get chat_data "message" EmptyString) = true ->
  falsy (get search_data "query" EmptyString) = true ->
  (post_chat clock format_message send_message (Object chat_data) st
   = (Jsonify (JDict [("error", JStr "No message provided")]) 400, st)
   /\ is_error (fst (post_chat clock format_message send_message
                       (Object chat_data) st)) = true)
  /\ (post_search (Object search_data) st
      = (Jsonify (JDict [("results", JList [])]) 200, st)
      /\ is_error (fst (post_search (Object search_data) st)) = false)
  /\ (post_chat clock format_message send_message (Unreadable text) st
      = (Jsonify (JDict [("error", JStr text)]) 500, st)
      /\ post_search (Unreadable text) st
         = (Jsonify (JDict [("error", JStr text)]) 500, st))
  /\ (post_chat clock format_message send_message (NotObject type_name) st
      = (Jsonify
           (JDict [("error",
                    JStr ("'" +:+ type_name
                          +:+ "' object has no attribute 'get'"))]) 500, st)
      /\ post_search (NotObject type_name) st
         = (Jsonify
              (JDict [("error",
                       JStr ("'" +:+ type_name
                             +:+ "' object has no attribute 'get'"))]) 500,
            st)).
Proof.
  intros Hm Hq. unfold post_chat, post_search, on_request.
  rewrite chat_no_message, search_no_query by assumption.
  repeat split.
Qed.

Lemma missing_field_responses_witness :
  falsy (get (∅ : gmap string string) "message" EmptyString) = true
  /\ falsy (get ({[ "query" := EmptyString ]} : gmap string string) "query"
              EmptyString) = true
  /\ post_chat sample.clock sample.format sample.provider (Object ∅)
       sample.started
     = (Jsonify (JDict [("error", JStr "No message provided")]) 400,
        sample.started)
  /\ post_search (Object {[ "query" := EmptyString ]}) sample.started
     = (Jsonify (JDict [("results", JList [])]) 200, sample.started)
  /\ post_chat sample.clock sample.format sample.provider
       (NotObject "NoneType") sample.started
     = (Jsonify
          (JDict [("error",
                   JStr "'NoneType' object has no attribute 'get'")]) 500,
        sample.started).
Proof.
  assert (Hm : falsy (get (∅ : gmap string string) "message" EmptyString)
               = true) by reflexivity.
  assert (Hq : falsy (get ({[ "query" := EmptyString ]} : gmap string string)
                        "query" EmptyString) = true) by reflexivity.
  split; [exact Hm|]. split; [exact Hq|].
  destruct (missing_field_responses sample.clock sample.format sample.provider
              ∅ {[ "query" := EmptyString ]} "unused" "NoneType"
              sample.started Hm Hq)
    as ([Hc _] & [Hs _] & _ & [Hn _]).
  split; [exact Hc|]. split; [exact Hs|exact Hn].
Defined.

(** The claim C5 fails for [/search]: an empty query is answered with
    status 200 and a list of results, not with an error. *)
Lemma search_empty_query_succeeds :
  search {[ "query" := EmptyString ]} sample.started
  = (Jsonify (JDict [("results", JList [])]) 200, sample.started)
  /\ is_error (fst (search {[ "query" := EmptyString ]} sample.started))
     = false.
Proof. split; reflexivity. Qed.

(** C7, as amended. For a format other than [json] and [txt], the
    dispatcher rejects the request with status 400 before anything is sent
    to the database. The method of the store raises a [ValueError] for such
    a format only after it has read the session and its messages; it
    changes neither table. *)
Theorem unsupported_format_rejected json_dumps (stamp sid format : string)
    (st : App) :
  format <> "json" -> format <> "txt" ->
  app.export_session json_dumps stamp sid format st
  = (Jsonify (JDict [("error", JStr "Invalid format. Use json or txt")]) 400,
     st)
  /\ database.export_session json_dumps sid format (db st)
     = (Raise (ValueError ("Unsupported format: " +:+ format)),
        exported sid (db st))
  /\ sessions (exported sid (db st)) = sessions (db st)
  /\ messages (exported sid (db st)) = messages (db st)
  /\ journal (exported sid (db st))
     = (journal (db st) ++ [SELECT_session sid; SELECT_messages sid])%list.
Proof.
  intros Hj Ht. split; [|split; [|split; [|split]]].
  - unfold app.export_session, try_except, utils.mem. simpl.
    rewrite (proj2 (String.eqb_neq _ _) Hj), (proj2 (String.eqb_neq _ _) Ht).
    reflexivity.
  - apply export_session_unsupported; assumption.
  - reflexivity.
  - reflexivity.
  - simpl. rewrite <- app_assoc. reflexivity.
Qed.

Lemma unsupported_format_rejected_witness :
  "xml" <> "json" /\ "xml" <> "txt"
  /\ app.export_session sample.dumps "20240101_000000" "s1" "xml"
       sample.started
     = (Jsonify (JDict [("error", JStr "Invalid format. Use json or txt")]) 400,
        sample.started).
Proof.
  assert (Hj : "xml" <> "json") by discriminate.
  assert (Ht : "xml" <> "txt") by discriminate.
  split; [exact Hj|]. split; [exact Ht|].
  exact (proj1 (unsupported_format_rejected sample.dumps "20240101_000000"
                  "s1" "xml" sample.started Hj Ht)).
Defined.

(** The rest of a turn once the chat object is in place: the user message
    is stored, the provider answers, the reply is stored. *)
Ltac chat_tail Hsend Hr :=
  rewrite call_eq, add_message_eq in Hr; cbn [fst snd] in Hr;
  unfold chat_send in Hr; cbn [chat_sessions db] in Hr; rewrite Hsend in Hr;
  rewrite call_eq, add_message_eq in Hr;
  change (String.eqb "user" "user") with true in Hr;
  change (String.eqb "assistant" "user") with false in Hr;
  cbn [fst snd db messages sessions chat_sessions mret Handler_ret] in Hr;
  subst; cbn [fst snd db messages sessions chat_sessions].

(** C10, as amended. For a [POST /chat] request whose body omits
    [session_id] and carries a message that is not empty, and whose call of
    the provider succeeds, the session id ['default'] is used: the user
    message and the reply are appended under it, in that order, the
    response names ['default'] as its session, and the process holds a live
    chat for it; when the process held none before, a session ['default']
    exists in the store afterwards, created if it was absent. *)
Theorem chat_default_session clock format_message send_message
    (data : gmap string string) (st : App) (text reply : string) :
  data !! "session_id" = None ->
  data !! "message" = Some text ->
  text <> EmptyString ->
  (forall history, send_message history text = Return reply) ->
  let r := chat clock format_message send_message data st in
  fst r = Jsonify (JDict [("response", JStr (format_message reply));
                          ("raw_response", JStr reply);
                          ("session_id", JStr "default")]) 200
  /\ summary <$> messages (db (snd r))
     = ((summary <$> messages (db st))
        ++ [("default", "user", text, None);
            ("default", "assistant", reply, Some (format_message reply))])%list
  /\ (chat_sessions st !! "default" = None ->
      is_Some (sessions (db (snd r)) !! "default"))
  /\ (is_Some (sessions (db st) !! "default") ->
      is_Some (sessions (db (snd r)) !! "default"))
  /\ is_Some (chat_sessions (snd r) !! "default").
Proof.
  intros Hsid Hmsg Hne Hsend r.
  assert (Hr : r = chat clock format_message send_message data st)
    by reflexivity.
  clearbody r.
  unfold chat, try_except, get in Hr. rewrite Hsid, Hmsg in Hr.
  destruct text as [|c text]; [congruence|].
  cbn [from_option id falsy] in Hr.
  set (msg := String c text) in *.
  unfold mbind, Handler_bind, known in Hr. cbv beta in Hr.
  destruct (chat_sessions st !! "default") as [h|] eqn:Hlive.
  - rewrite bool_decide_eq_true_2 in Hr by eauto.
    unfold mret at 1, Handler_ret at 1 in Hr.
    chat_tail Hsend Hr.
    split; [reflexivity|]. split; [|split; [discriminate|split]].
    + rewrite !fmap_app, <- app_assoc. reflexivity.
    + rewrite !lookup_alter_is_Some. tauto.
    + rewrite lookup_insert_eq. eauto.
  - rewrite bool_decide_eq_false_2 in Hr by (intros [? [=]]).
    rewrite call_eq, get_session_eq in Hr. cbn [fst snd db] in Hr.
    destruct (sessions (db st) !! "default") as [row|] eqn:Hs;
      cbn [fmap option_fmap option_map] in Hr.
    + unfold mret at 1, Handler_ret at 1 in Hr.
      rewrite call_eq, get_messages_eq in Hr.
      cbn [fst snd db chat_sessions] in Hr.
      unfold start_chat in Hr. cbn [fst snd db chat_sessions] in Hr.
      chat_tail Hsend Hr.
      split; [reflexivity|]. split; [|split; [|split]].
      * rewrite !fmap_app, <- app_assoc. reflexivity.
      * intros _. rewrite !lookup_alter_is_Some. cbn. rewrite Hs. eauto.
      * intros _. rewrite !lookup_alter_is_Some. cbn. rewrite Hs. eauto.
      * rewrite lookup_insert_eq. eauto.
    + rewrite call_eq in Hr. unfold create_session, sql_insert_session in Hr.
      cbn [db log sessions] in Hr. rewrite Hs in Hr.
      cbn [fst snd db chat_sessions] in Hr.
      rewrite call_eq, get_messages_eq in Hr.
      cbn [fst snd db chat_sessions] in Hr.
      unfold start_chat in Hr. cbn [fst snd db chat_sessions] in Hr.
      chat_tail Hsend Hr.
      split; [reflexivity|]. split; [|split; [|split]].
      * rewrite !fmap_app, <- app_assoc. reflexivity.
      * intros _. rewrite !lookup_alter_is_Some. cbn.
        rewrite lookup_insert_eq. eauto.
      * intros [? [=]].
      * rewrite lookup_insert_eq. eauto.
Qed.

Lemma chat_default_session_witness :
  ({[ "message" := "Hi" ]} : gmap string string) !! "session_id" = None
  /\ ({[ "message" := "Hi" ]} : gmap string string) !! "message" = Some "Hi"
  /\ "Hi" <> EmptyString
  /\ (forall history, sample.provider history "Hi" = Return "Hello there")
  /\ fst (chat sample.clock sample.format sample.provider
            {[ "message" := "Hi" ]} sample.started)
     = Jsonify (JDict [("response", JStr "<p>Hello there</p>");
                       ("raw_response", JStr "Hello there");
                       ("session_id", JStr "default")]) 200.
Proof.
  assert (Hs : ({[ "message" := "Hi" ]} : gmap string string) !! "session_id"
               = None) by reflexivity.
  assert (Hm : ({[ "message" := "Hi" ]} : gmap string string) !! "message"
               = Some "Hi") by reflexivity.
  assert (Hne : "Hi" <> EmptyString) by discriminate.
  assert (Hp : forall history, sample.provider history "Hi"
                               = Return "Hello there") by reflexivity.
  split; [exact Hs|]. split; [exact Hm|]. split; [exact Hne|].
  split; [exact Hp|].
  exact (proj1 (chat_default_session sample.clock sample.format sample.provider
                  {[ "message" := "Hi" ]} sample.started "Hi" "Hello there"
                  Hs Hm Hne Hp)).
Defined.

(** The claim C10 fails for a body that omits [session_id] and carries no
    message: the request is rejected, no session ['default'] is created and
    the response names no session. *)
Lemma chat_without_message :
  (∅ : gmap string string) !! "session_id" = None
  /\ chat sample.clock sample.format sample.provider ∅ sample.started
     = (Jsonify (JDict [("error", JStr "No message provided")]) 400,
        sample.started)
  /\ sessions (db sample.started) !! "default" = None
  /\ messages (db sample.started) = [].
Proof. repeat split. Qed.

(** After ['default'] was cleared, the next turn brings its old messages
    back: the row of the session is new, the messages never left. *)
Example chat_after_clear :
  let turn := chat sample.clock sample.format sample.provider
                {[ "message" := "Hi" ]} in
  let st1 := snd (turn sample.started) in
  let st2 := snd (clear_chat ∅ st1) in
  let st3 := snd (turn st2) in
  sessions (db st2) !! "default" = None
  /\ m_content <$> messages (db st2) = ["Hi"; "Hello there"]
  /\ (default [] (chat_sessions st3 !! "default")
      = [ {| role := "user"; parts := ["Hi"] |};
          {| role := "model"; parts := ["Hello there"] |};
          {| role := "user"; parts := ["Hi"] |};
          {| role := "model"; parts := ["Hello there"] |} ]).
Proof. vm_compute. repeat split. Qed.

End app_facts.

(** ** The sanitizing formatter *)

Module utils_facts.

Import utils markup.

Lemma forallb_flat_map {A B} (f : B -> bool) (g : A -> list B) (l : list A) :
  Forall (fun x => forallb f (g x) = true) l ->
  forallb f (flat_map g l) = true.
Proof.
  induction 1 as [|x l Hx Hl IH]; simpl; [reflexivity|].
  rewrite forallb_app, Hx, IH. reflexivity.
Qed.

Lemma clean_node_element uri_scheme (tags : list string)
    (attributes : list (string * list string)) (strip : bool)
    (tag : string) (attrs : list (string * string)) (children : list node) :
  clean_node uri_scheme tags attributes strip (Element tag attrs children)
  = let inner :=
      flat_map (clean_node uri_scheme tags attributes strip) children in
    if mem tag tags then
      [Element tag (List.filter (allow_attr uri_scheme attributes tag) attrs)
         inner]
    else if strip then inner
    else (Text (start_tag tag attrs) :: inner ++ [Text (end_tag tag)])%list.
Proof. reflexivity. Qed.

Lemma allowed_element uri_scheme (tags : list string)
    (attributes : list (string * list string))
    (tag : string) (attrs : list (string * string)) (children : list node) :
  allowed uri_scheme tags attributes (Element tag attrs children)
  = mem tag tags
    && forallb (allow_attr uri_scheme attributes tag) attrs
    && forallb (allowed uri_scheme tags attributes) children.
Proof. reflexivity. Qed.

(** Whatever the tree, what [bleach_clean] leaves is within the lists it
    was given. *)
Lemma clean_node_allowed uri_scheme (tags : list string)
    (attributes : list (string * list string)) (n : node) :
  forallb (allowed uri_scheme tags attributes)
    (clean_node uri_scheme tags attributes true n) = true.
Proof.
  induction n as [s|s|tag attrs children IH] using node_induction;
    [reflexivity|reflexivity|].
  apply forallb_flat_map in IH.
  rewrite clean_node_element. cbv zeta.
  destruct (mem tag tags) eqn:Htag; [|exact IH].
  cbn [forallb]. rewrite allowed_element, Htag, IH, !andb_true_r.
  cbn [andb]. apply forallb_forall. intros a Ha.
  apply filter_In in Ha as [_ Ha]. exact Ha.
Qed.

Lemma bleach_clean_allowed uri_scheme (html : list node) (tags : list string)
    (attributes : list (string * list string)) :
  forallb (allowed uri_scheme tags attributes)
    (bleach_clean uri_scheme html tags attributes true) = true.
Proof.
  unfold bleach_clean. apply forallb_flat_map, Forall_forall.
  intros n _. apply clean_node_allowed.
Qed.

End utils_facts.

(** * Further properties of the store *)

Module store_extras.

Import database spec frame database_facts export_facts.

Lemma create_session_eq clock (sid : string) (ttl : option string) (st : Store) :
  create_session clock sid ttl st
  = match sessions st !! sid with
    | Some _ =>
        (Raise (IntegrityError "UNIQUE constraint failed: sessions.id"),
         log (INSERT_session sid (stored_title ttl)) st)
    | None =>
        (Return tt,
         log (INSERT_session sid (stored_title ttl))
           (with_sessions
              (<[sid := {| s_created_at := clock (length (journal st));
                           s_updated_at := clock (length (journal st));
                           s_title := stored_title ttl;
                           s_model_name := "gemini-1.5-flash" |}]>
                 (sessions st)) st))
    end.
Proof.
  unfold create_session, sql_insert_session, now.
  replace (py_or (default EmptyString ttl) "New Chat") with (stored_title ttl)
    by (destruct ttl as [[|c t]|]; reflexivity).
  reflexivity.
Qed.

(** X1. A session is created once: a second [create_session] with the
    same id raises [IntegrityError], whatever title it brings, and the
    session keeps the title and the timestamps of the first. *)
Theorem create_session_twice clock (sid : string) (first second : option string)
    (st : Store) :
  sessions st !! sid = None ->
  let st1 := snd (create_session clock sid first st) in
  let r := create_session clock sid second st1 in
  fst r = Raise (IntegrityError "UNIQUE constraint failed: sessions.id")
  /\ same_tables (snd r) st1
  /\ fst (get_session sid (snd r))
     = Return (Some {| d_id := sid;
                       d_created_at := clock (length (journal st));
                       d_updated_at := clock (length (journal st));
                       d_title := stored_title first;
                       d_model_name := "gemini-1.5-flash" |}).
Proof.
  intros Hnone st1 r. subst r st1.
  rewrite (create_session_eq clock sid first st), Hnone. cbn [snd].
  rewrite create_session_eq. cbn [sessions log with_sessions].
  rewrite lookup_insert_eq. cbn [fst snd].
  split; [reflexivity|]. split; [repeat split|].
  rewrite get_session_eq. cbn [fst sessions log with_sessions].
  rewrite lookup_insert_eq. reflexivity.
Qed.

Lemma create_session_twice_witness :
  sessions init_database !! "s1" = None
  /\ fst (create_session sample.clock "s1" (Some "Renamed") sample.created)
     = Raise (IntegrityError "UNIQUE constraint failed: sessions.id").
Proof.
  assert (H : sessions init_database !! "s1" = None) by reflexivity.
  split; [exact H|].
  exact (proj1 (create_session_twice sample.clock "s1" None (Some "Renamed")
                  init_database H)).
Defined.

(** X2. Creating a session and reading it back: on an id that is free,
    [create_session] succeeds and [get_session] then returns the id, the
    title given (['New Chat'] when it is missing or empty), the model name
    ['gemini-1.5-flash'] and one timestamp for creation and update; what
    [get_session] returns for any other id is as before, and no message is
    touched. *)
Theorem create_then_get_session clock (sid : string) (ttl : option string)
    (st : Store) (other : string) :
  sessions st !! sid = None ->
  other <> sid ->
  let r := create_session clock sid ttl st in
  fst r = Return tt
  /\ fst (get_session sid (snd r))
     = Return (Some {| d_id := sid;
                       d_created_at := clock (length (journal st));
                       d_updated_at := clock (length (journal st));
                       d_title := stored_title ttl;
                       d_model_name := "gemini-1.5-flash" |})
  /\ fst (get_session other (snd r)) = fst (get_session other st)
  /\ messages (snd r) = messages st.
Proof.
  intros Hnone Hother r. subst r.
  rewrite create_session_eq, Hnone. cbn [fst snd].
  rewrite !get_session_eq. cbn [fst sessions messages log with_sessions].
  rewrite lookup_insert_eq, lookup_insert_ne by congruence.
  repeat split.
Qed.

Lemma create_then_get_session_witness :
  sessions init_database !! "s1" = None
  /\ "s2" <> "s1"
  /\ fst (get_session "s1"
            (snd (create_session sample.clock "s1" (Some EmptyString)
                    init_database)))
     = Return (Some {| d_id := "s1";
                       d_created_at := "2024-01-01 00:00:00";
                       d_updated_at := "2024-01-01 00:00:00";
                       d_title := "New Chat";
                       d_model_name := "gemini-1.5-flash" |}).
Proof.
  assert (H : sessions init_database !! "s1" = None) by reflexivity.
  assert (Hne : "s2" <> "s1") by discriminate.
  split; [exact H|]. split; [exact Hne|].
  destruct (create_then_get_session sample.clock "s1" (Some EmptyString)
              init_database "s2" H Hne) as (_ & Hget & _).
  exact Hget.
Defined.

(** The row that [add_message] inserts. *)
Lemma add_message_row clock (sid snd txt : string) (fmt : option string)
    (st : Store) :
  fst (add_message clock sid snd txt fmt st) = Return tt
  /\ messages (Datatypes.snd (add_message clock sid snd txt fmt st))
     = (messages st
        ++ [ {| m_id := (sqlite_sequence st + 1)%N; m_session_id := sid;
                m_sender := snd; m_content := txt; m_formatted_content := fmt;
                m_timestamp := clock (length (journal st)) |} ])%list
  /\ sqlite_sequence (Datatypes.snd (add_message clock sid snd txt fmt st))
     = (sqlite_sequence st + 1)%N.
Proof. rewrite add_message_eq. repeat split. Qed.

(** What [get_messages] returns, as a set. *)
Lemma elem_of_get_messages (sid : string) (st : Store) (d : MessageDict) :
  (exists l, fst (get_messages sid st) = Return l /\ d ∈ l)
  <-> exists m, m ∈ messages st /\ m_session_id m = sid /\ d = message_dict m.
Proof.
  rewrite get_messages_eq. cbn [fst]. split.
  - intros (l & [= <-] & Hd). apply list_elem_of_fmap in Hd as (m & -> & Hm).
    rewrite (order_by_perm ts_asc), list_elem_of_In, filter_In,
      <- list_elem_of_In in Hm.
    destruct Hm as [Hm Hs]. apply String.eqb_eq in Hs. eauto.
  - intros (m & Hm & Hs & ->). eexists. split; [reflexivity|].
    apply list_elem_of_fmap. exists m. split; [reflexivity|].
    rewrite (order_by_perm ts_asc), list_elem_of_In, filter_In,
      <- list_elem_of_In.
    split; [exact Hm|]. apply String.eqb_eq, Hs.
Qed.

(** X3. [add_message] does not check that the session exists: for an id
    without a session it succeeds, creates no session, and the message is
    stored and comes back from [get_messages] on that id. *)
Theorem add_message_unknown_session clock (sid snd txt : string)
    (fmt : option string) (st : Store) :
  sessions st !! sid = None ->
  let r := add_message clock sid snd txt fmt st in
  fst r = Return tt
  /\ sessions (Datatypes.snd r) = sessions st
  /\ fst (get_session sid (Datatypes.snd r)) = Return None
  /\ exists l, fst (get_messages sid (Datatypes.snd r)) = Return l
       /\ {| d_sender := snd; d_content := txt; d_formatted_content := fmt;
             d_timestamp := clock (length (journal st)) |} ∈ l.
Proof.
  intros Hnone r.
  assert (Hs : sessions (Datatypes.snd r) = sessions st).
  { subst r. rewrite add_message_eq. cbn [Datatypes.snd sessions].
    destruct (String.eqb snd "user"); rewrite !alter_id'; try reflexivity;
      try exact Hnone.
    rewrite alter_id' by exact Hnone. exact Hnone. }
  split; [apply add_message_row|]. split; [exact Hs|]. split.
  - rewrite get_session_eq. cbn [fst]. rewrite Hs, Hnone. reflexivity.
  - apply elem_of_get_messages.
    exists {| m_id := (sqlite_sequence st + 1)%N; m_session_id := sid;
              m_sender := snd; m_content := txt; m_formatted_content := fmt;
              m_timestamp := clock (length (journal st)) |}.
    split; [|split; reflexivity].
    subst r. rewrite (proj1 (proj2 (add_message_row _ _ _ _ _ _))).
    apply elem_of_app. right. apply list_elem_of_singleton. reflexivity.
Qed.

Lemma add_message_unknown_session_witness :
  sessions init_database !! "ghost" = None
  /\ fst (get_messages "ghost"
            (snd (add_message sample.clock "ghost" "user" "Hi" None
                    init_database)))
     = Return [ {| d_sender := "user"; d_content := "Hi";
                   d_formatted_content := None;
                   d_timestamp := "2024-01-01 00:00:00" |} ]
  /\ sessions (snd (add_message sample.clock "ghost" "user" "Hi" None
                      init_database)) = sessions init_database.
Proof.
  assert (H : sessions init_database !! "ghost" = None) by reflexivity.
  split; [exact H|]. split; [reflexivity|].
  destruct (add_message_unknown_session sample.clock "ghost" "user" "Hi" None
              init_database H) as (_ & Hs & _).
  exact Hs.
Defined.

(** X4. [add_message] adds exactly one message to its session and none to
    any other: [get_messages] on the session returns one more message than
    before, and on every other id what it returned before. *)
Theorem add_message_one_more clock (sid snd txt : string) (fmt : option string)
    (st : Store) (other : string) :
  other <> sid ->
  let st' := Datatypes.snd (add_message clock sid snd txt fmt st) in
  fst (get_messages other st') = fst (get_messages other st)
  /\ exists before after,
       fst (get_messages sid st) = Return before
       /\ fst (get_messages sid st') = Return after
       /\ length after = S (length before)
       /\ after ≡ₚ {| d_sender := snd; d_content := txt;
                      d_formatted_content := fmt;
                      d_timestamp := clock (length (journal st)) |} :: before.
Proof.
  intros Hne st'. subst st'.
  rewrite !get_messages_eq. cbn [fst].
  rewrite (proj1 (proj2 (add_message_row clock sid snd txt fmt st))).
  rewrite !List.filter_app.
  set (row := {| m_id := (sqlite_sequence st + 1)%N; m_session_id := sid;
                 m_sender := snd; m_content := txt;
                 m_formatted_content := fmt;
                 m_timestamp := clock (length (journal st)) |}).
  assert (Hsame : List.filter (of_session sid) [row] = [row]).
  { simpl. unfold of_session. simpl. rewrite String.eqb_refl. reflexivity. }
  assert (Hother : List.filter (of_session other) [row] = []).
  { simpl. unfold of_session. simpl.
    rewrite (proj2 (String.eqb_neq sid other)) by congruence. reflexivity. }
  rewrite Hsame, Hother, app_nil_r. subst row. split; [reflexivity|].
  eexists. eexists. split; [reflexivity|]. split; [reflexivity|].
  assert (Hperm :
    message_dict <$> order_by ts_asc
      (List.filter (of_session sid) (messages st)
       ++ [ {| m_id := (sqlite_sequence st + 1)%N; m_session_id := sid;
               m_sender := snd; m_content := txt; m_formatted_content := fmt;
               m_timestamp := clock (length (journal st)) |} ])
    ≡ₚ {| d_sender := snd; d_content := txt; d_formatted_content := fmt;
          d_timestamp := clock (length (journal st)) |}
       :: (message_dict <$> order_by ts_asc
             (List.filter (of_session sid) (messages st)))).
  { rewrite !(order_by_perm ts_asc), fmap_app. symmetry.
    apply Permutation_cons_append. }
  split; [|exact Hperm].
  rewrite Hperm. reflexivity.
Qed.

Lemma add_message_one_more_witness :
  "s2" <> "s1"
  /\ fst (get_messages "s2"
            (snd (add_message sample.clock "s1" "user" "Hi" None
                    sample.created)))
     = fst (get_messages "s2" sample.created).
Proof.
  assert (H : "s2" <> "s1") by discriminate.
  split; [exact H|].
  exact (proj1 (add_message_one_more sample.clock "s1" "user" "Hi" None
                  sample.created "s2" H)).
Defined.

(** X5. [add_message] on an existing session sets its [updated_at] to the
    clock and leaves its creation time and model name as they were; every
    other session is left as it was, title included. *)
Theorem add_message_touches_session clock (sid snd txt : string)
    (fmt : option string) (st : Store) (row : SessionRow) (other : string) :
  sessions st !! sid = Some row ->
  other <> sid ->
  let st' := Datatypes.snd (add_message clock sid snd txt fmt st) in
  (exists row',
     sessions st' !! sid = Some row'
     /\ s_updated_at row' = clock (S (length (journal st)))
     /\ s_created_at row' = s_created_at row
     /\ s_model_name row' = s_model_name row)
  /\ sessions st' !! other = sessions st !! other.
Proof.
  intros Hrow Hne st'. subst st'. rewrite add_message_eq.
  cbn [Datatypes.snd sessions].
  destruct (String.eqb snd "user").
  - rewrite !lookup_alter_eq, Hrow, !lookup_alter_ne by congruence.
    split; [|reflexivity]. eexists. split; [reflexivity|].
    cbn. unfold retitle. cbn. destruct (String.eqb (s_title row) "New Chat");
      repeat split.
  - rewrite !lookup_alter_eq, Hrow, !lookup_alter_ne by congruence.
    split; [|reflexivity]. eexists. split; [reflexivity|]. repeat split.
Qed.

Lemma add_message_touches_session_witness :
  (exists row, sessions sample.created !! "s1" = Some row)
  /\ "s2" <> "s1"
  /\ sessions (snd (add_message sample.clock "s1" "assistant" "Hello" None
                      sample.created)) !! "s2"
     = sessions sample.created !! "s2".
Proof.
  assert (Hne : "s2" <> "s1") by discriminate.
  destruct (sessions sample.created !! "s1") as [row|] eqn:Hrow;
    [|discriminate Hrow].
  split; [eauto|]. split; [exact Hne|].
  exact (proj2 (add_message_touches_session sample.clock "s1" "assistant"
                  "Hello" None sample.created row "s2" Hrow Hne)).
Defined.

(** X6. A title given at creation, other than the empty one and
    ['New Chat'], is never replaced: whatever messages are added afterwards,
    to this session or to others, the session keeps it. *)
Theorem custom_title_kept clock (sid ttl : string) (calls : list Call)
    (st : Store) :
  sessions st !! sid = None ->
  ttl <> EmptyString ->
  ttl <> "New Chat" ->
  title_of (appends clock calls (snd (create_session clock sid (Some ttl) st)))
    sid = Some ttl.
Proof.
  intros Hnone Hempty Hdefault.
  assert (Ht : title_of (snd (create_session clock sid (Some ttl) st)) sid
               = Some ttl).
  { rewrite create_session_eq, Hnone. unfold title_of.
    cbn [snd sessions log with_sessions]. rewrite lookup_insert_eq.
    destruct ttl; [congruence|reflexivity]. }
  rewrite appends_frozen; rewrite Ht; congruence.
Qed.

Lemma custom_title_kept_witness :
  sessions init_database !! "s1" = None
  /\ "Plans" <> EmptyString
  /\ "Plans" <> "New Chat"
  /\ title_of (appends sample.clock [sample.hi; sample.hello; sample.again]
                 (snd (create_session sample.clock "s1" (Some "Plans")
                         init_database))) "s1" = Some "Plans".
Proof.
  assert (Hn : sessions init_database !! "s1" = None) by reflexivity.
  assert (He : "Plans" <> EmptyString) by discriminate.
  assert (Hd : "Plans" <> "New Chat") by discriminate.
  split; [exact Hn|]. split; [exact He|]. split; [exact Hd|].
  exact (custom_title_kept sample.clock "s1" "Plans"
           [sample.hi; sample.hello; sample.again] init_database Hn He Hd).
Defined.

(** What a call does to [messages] and to the AUTOINCREMENT counter. *)
Lemma step_sequence clock (o : op) (st : Store) :
  (messages (step clock o st) = messages st
   /\ sqlite_sequence (step clock o st) = sqlite_sequence st)
  \/ (exists row,
        messages (step clock o st) = (messages st ++ [row])%list
        /\ m_id row = (sqlite_sequence st + 1)%N
        /\ sqlite_sequence (step clock o st) = (sqlite_sequence st + 1)%N).
Proof.
  destruct o as [sid ttl|c|sid|sid|sid|q lim]; simpl.
  - rewrite create_session_eq. destruct (sessions st !! sid); left; split;
      reflexivity.
  - right. unfold append. rewrite add_message_eq. eexists.
    split; [reflexivity|]. split; reflexivity.
  - left. split; reflexivity.
  - left. rewrite get_session_eq. split; reflexivity.
  - left. split; reflexivity.
  - left. split; reflexivity.
Qed.

(** X7. Message ids count the insertions: after any calls on a fresh
    database the stored messages carry the ids 1, 2, ... in insertion
    order, so no two messages share an id, and the counter stands at their
    number. *)
Theorem message_ids_count clock (ops : list op) :
  let st := run clock ops init_database in
  m_id <$> messages st = N.of_nat <$> seq 1 (length (messages st))
  /\ sqlite_sequence st = N.of_nat (length (messages st)).
Proof.
  cut (forall st,
         m_id <$> messages st = N.of_nat <$> seq 1 (length (messages st))
         /\ sqlite_sequence st = N.of_nat (length (messages st)) ->
         m_id <$> messages (run clock ops st)
         = N.of_nat <$> seq 1 (length (messages (run clock ops st)))
         /\ sqlite_sequence (run clock ops st)
            = N.of_nat (length (messages (run clock ops st)))).
  { intros H. apply H. split; reflexivity. }
  induction ops as [|o ops IH]; intros st [Hids Hseq]; [split; assumption|].
  simpl. apply IH.
  destruct (step_sequence clock o st) as [[Hm Hs]|(row & Hm & Hid & Hs)];
    rewrite Hm, Hs.
  - split; assumption.
  - rewrite length_app, fmap_app. simpl length. rewrite Nat.add_1_r.
    rewrite seq_S, fmap_app, <- Hids. simpl. rewrite Hid, Hseq.
    split; [f_equal; f_equal; lia|lia].
Qed.

(** X8. No call on the store removes or rewrites a stored message:
    whatever is called, [delete_session] included, the rows of [messages]
    before the calls are the first rows of [messages] after them. *)
Theorem messages_only_grow clock (ops : list op) (st : Store) :
  exists new : list MessageRow,
    messages (run clock ops st) = (messages st ++ new)%list.
Proof.
  revert st. induction ops as [|o ops IH]; intros st.
  - exists []. simpl. rewrite app_nil_r. reflexivity.
  - simpl. destruct (IH (step clock o st)) as (new & Hnew).
    fold (run clock ops (step clock o st)). rewrite Hnew.
    destruct (step_sequence clock o st) as [[Hm _]|(row & Hm & _)];
      rewrite Hm.
    + exists new. reflexivity.
    + exists (row :: new). rewrite <- app_assoc. reflexivity.
Qed.

(** X9. The methods that read change neither table: after [get_session],
    [get_messages], [search_messages] and [export_session], whatever their
    arguments and whether they return or raise, sessions, messages and the
    id counter are as before. *)
Theorem reads_change_nothing json_dumps (sid query format : string) (limit : Z)
    (st : Store) :
  same_tables (snd (get_session sid st)) st
  /\ same_tables (snd (get_messages sid st)) st
  /\ same_tables (snd (search_messages query limit st)) st
  /\ same_tables (snd (export_session json_dumps sid format st)) st.
Proof.
  rewrite get_session_eq, export_session_eq. repeat split.
Qed.

(** *** Searching *)

Lemma filter_all {A} (f : A -> bool) (l : list A) :
  (forall x, f x = true) -> List.filter f l = l.
Proof.
  intros Hf. induction l as [|x l IH]; simpl; [reflexivity|].
  rewrite Hf, IH. reflexivity.
Qed.

(** X10. At the store the empty query matches every content: for any
    limit, [search_messages] with the empty query returns the messages of
    all existing sessions, most recent first, cut at the limit. *)
Theorem search_empty_query_all (limit : Z) (st : Store) :
  fst (search_messages EmptyString limit st)
  = Return (hit <$> sql_limit limit
              (order_by ts_desc
                 (omap (join_sessions (sessions st)) (messages st)))).
Proof.
  rewrite search_messages_eq. cbn [fst]. rewrite filter_all; [reflexivity|].
  intros r. rewrite like_contains by reflexivity.
  destruct (m_content (fst r)); reflexivity.
Qed.

(** X11. Messages of a deleted session are out of reach of the search:
    after [delete_session], no result of [search_messages] belongs to the
    deleted id, whatever the query and the limit. *)
Theorem search_after_delete (sid query : string) (limit : Z) (st : Store) :
  exists hits : list Hit,
    fst (search_messages query limit (snd (delete_session sid st)))
    = Return hits
    /\ Forall (fun h => h_session_id h <> sid) hits.
Proof.
  rewrite search_messages_eq. cbn [fst]. eexists. split; [reflexivity|].
  apply Forall_fmap, Forall_forall. intros r Hr. simpl.
  assert (Hin : r ∈ order_by ts_desc
                  (List.filter
                     (fun r => like ("%" +:+ query +:+ "%") (m_content (fst r)))
                     (omap (join_sessions
                              (sessions (snd (delete_session sid st))))
                        (messages (snd (delete_session sid st)))))).
  { unfold sql_limit in Hr. destruct (limit <? 0); [exact Hr|].
    eapply subseteq_take, Hr. }
  apply elem_of_joined in Hin as (_ & Hs & _).
  intros E. rewrite E in Hs. simpl in Hs. rewrite lookup_delete_eq in Hs.
  discriminate Hs.
Qed.

Lemma upper_char_percent (c : ascii) :
  Ascii.eqb (upper_char c) "%" = Ascii.eqb c "%".
Proof. destruct c as [[] [] [] [] [] [] [] []]; reflexivity. Qed.

Lemma upper_char_underscore (c : ascii) :
  Ascii.eqb (upper_char c) "_" = Ascii.eqb c "_".
Proof. destruct c as [[] [] [] [] [] [] [] []]; reflexivity. Qed.

Lemma lower_upper_char (c : ascii) : lower_char (upper_char c) = lower_char c.
Proof. destruct c as [[] [] [] [] [] [] [] []]; reflexivity. Qed.

(** A pattern matches what its upper-case form matches. *)
Lemma like_upper (p s : string) : like (ascii_upper p) s = like p s.
Proof.
  revert s. induction p as [|c p IH]; intros s; [reflexivity|].
  cbn [ascii_upper]. destruct (Ascii.eqb c "%") eqn:Hc.
  - apply Ascii.eqb_eq in Hc. subst c.
    change (upper_char "%") with "%"%char.
    induction s as [|d s IHs].
    + rewrite (like_percent (ascii_upper p)), (like_percent p), IH.
      reflexivity.
    + rewrite (like_percent (ascii_upper p) (String d s)),
        (like_percent p (String d s)), IH, IHs.
      reflexivity.
  - rewrite !like_char by (rewrite ?upper_char_percent; exact Hc).
    destruct s as [|d s]; [reflexivity|].
    rewrite upper_char_underscore, IH. unfold eq_nocase.
    rewrite lower_upper_char. reflexivity.
Qed.

Lemma upper_append (a b : string) :
  ascii_upper (a +:+ b) = ascii_upper a +:+ ascii_upper b.
Proof.
  induction a as [|c a IH]; [reflexivity|].
  change (String (upper_char c) (ascii_upper (a +:+ b))
          = String (upper_char c) (ascii_upper a +:+ ascii_upper b)).
  f_equal. exact IH.
Qed.

(** X12. The search does not tell upper case from lower case in the
    letters [a] to [z] of the query: the query with these letters replaced
    by [A] to [Z], every other character left as it is, returns the same
    results on every store and for every limit that SQLite can bind, a
    signed 64-bit integer. *)
Theorem search_ignores_case (query : string) (limit : Z) (st : Store) :
  - 2 ^ 63 <= limit < 2 ^ 63 ->
  fst (search_messages (ascii_upper query) limit st)
  = fst (search_messages query limit st).
Proof.
  intros _. rewrite !search_messages_eq. cbn [fst].
  replace ("%" +:+ ascii_upper query +:+ "%")
    with (ascii_upper ("%" +:+ query +:+ "%"))
    by (rewrite !upper_append; reflexivity).
  set (pattern := "%" +:+ query +:+ "%").
  set (joined := omap (join_sessions (sessions st)) (messages st)).
  assert (Hf : List.filter
                 (fun r : MessageRow * SessionRow =>
                    like (ascii_upper pattern) (m_content (fst r))) joined
               = List.filter
                   (fun r : MessageRow * SessionRow =>
                      like pattern (m_content (fst r))) joined).
  { induction joined as [|r l IH]; cbn [List.filter]; [reflexivity|].
    rewrite like_upper, IH. reflexivity. }
  rewrite Hf. reflexivity.
Qed.

Lemma search_ignores_case_witness :
  - 2 ^ 63 <= 50 < 2 ^ 63
  /\ ascii_upper "hello" = "HELLO"
  /\ fst (search_messages (ascii_upper "hello") 50 sample.exchanged)
     = fst (search_messages "hello" 50 sample.exchanged).
Proof.
  assert (Hr : - 2 ^ 63 <= 50 < 2 ^ 63) by lia.
  split; [exact Hr|]. split; [reflexivity|].
  exact (search_ignores_case "hello" 50 sample.exchanged Hr).
Defined.

(** The query [hello] and the query [HELLO] on one store. *)
Example search_ignores_case_hello :
  ascii_upper "hello" = "HELLO"
  /\ fst (search_messages "HELLO" 50 sample.exchanged)
     = Return [ {| h_session_id := "s1"; h_session_title := "Hi";
                   h_sender := "assistant"; h_content := "Hello there";
                   h_timestamp := "2024-01-01 00:00:04" |} ]
  /\ fst (search_messages "hello" 50 sample.exchanged)
     = fst (search_messages "HELLO" 50 sample.exchanged).
Proof. vm_compute. repeat split. Qed.

End store_extras.

(** * Further properties: the list of sessions *)

Module listing_facts.

Import database spec frame database_facts listing.

Section Scanned.

Variable scan : gmap string SessionRow -> list (string * SessionRow).

(** The scan visits every row of the table once. *)
Hypothesis scan_all : forall m, scan m ≡ₚ map_to_list m.

Lemma elem_of_scan_sorted (st : Store) (r : string * SessionRow) :
  r ∈ order_by updated_desc (scan (sessions st))
  <-> sessions st !! fst r = Some (snd r).
Proof.
  rewrite (order_by_perm updated_desc), scan_all. apply elem_of_map_to_list'.
Qed.

Lemma limit_subseteq {A} (limit : Z) (l : list A) : sql_limit limit l ⊆ l.
Proof.
  unfold sql_limit. destruct (limit <? 0); [reflexivity|apply subseteq_take].
Qed.

Lemma listing_sound (limit : Z) (st : Store) :
  let l := get_all_sessions scan limit st in
  Sorted (fun a b => String.leb (l_updated_at b) (l_updated_at a) = true) l
  /\ NoDup (l_id <$> l)
  /\ Forall (fun d =>
               sessions st !! l_id d
               = Some {| s_created_at := l_created_at d;
                         s_updated_at := l_updated_at d;
                         s_title := l_title d;
                         s_model_name := l_model_name d |}
               /\ exists msgs,
                    fst (get_messages (l_id d) st) = Return msgs
                    /\ length msgs = l_message_count d) l
  /\ (0 <= limit -> Z.of_nat (length l) <= limit).
Proof.
  intros l. subst l. unfold get_all_sessions.
  set (rows := order_by updated_desc (scan (sessions st))).
  split; [|split; [|split]].
  - eapply Sorted_fmap with (R1 := leP updated_desc); [intros x y H; exact H|].
    unfold sql_limit. destruct (limit <? 0); [|apply Sorted_take];
      apply order_by_sorted; intros a b; apply String.leb_total.
  - rewrite <- list_fmap_compose.
    assert (Hnd : NoDup (rows.*1)).
    { subst rows. rewrite (order_by_perm updated_desc), scan_all.
      apply NoDup_fst_map_to_list. }
    unfold sql_limit. destruct (limit <? 0); [exact Hnd|].
    rewrite fmap_take. eapply sublist_NoDup; [exact Hnd|apply sublist_take].
  - apply Forall_fmap, Forall_forall. intros [id row] Hr.
    apply limit_subseteq, elem_of_scan_sorted in Hr. cbn [fst snd] in Hr.
    unfold compose.
    cbn [l_id l_created_at l_updated_at l_title l_model_name l_message_count
         fst snd].
    split; [rewrite Hr; destruct row; reflexivity|].
    rewrite get_messages_eq. eexists. split; [reflexivity|].
    rewrite length_fmap, order_by_length. reflexivity.
  - intros Hlim. rewrite length_fmap. unfold sql_limit.
    rewrite (proj2 (Z.ltb_ge limit 0) Hlim), length_take. lia.
Qed.

Lemma listing_complete (limit : Z) (st : Store) (id : string) :
  limit < 0 \/ Z.of_nat (size (sessions st)) <= limit ->
  is_Some (sessions st !! id) ->
  id ∈ l_id <$> get_all_sessions scan limit st.
Proof.
  intros Hlim [row Hrow]. unfold get_all_sessions.
  set (rows := order_by updated_desc (scan (sessions st))).
  assert (Hall : sql_limit limit rows = rows).
  { unfold sql_limit. destruct (Z.ltb_spec limit 0) as [|Hge]; [reflexivity|].
    apply take_ge. subst rows.
    rewrite order_by_length, scan_all, length_map_to_list. lia. }
  rewrite Hall, <- list_fmap_compose.
  apply list_elem_of_fmap. exists (id, row). split; [reflexivity|].
  apply elem_of_scan_sorted. exact Hrow.
Qed.

End Scanned.

(** X13. [get_all_sessions] lists sessions by last update, most recent
    first, each session at most once and with the fields of its row, and
    with a message count that is the number of messages [get_messages]
    returns for it; for a limit that is not negative it lists at most that
    many. The order in which the engine scans the table is a parameter. *)
Theorem get_all_sessions_sound scan (limit : Z) (st : Store) :
  (forall m, scan m ≡ₚ map_to_list m) ->
  let l := get_all_sessions scan limit st in
  Sorted (fun a b => String.leb (l_updated_at b) (l_updated_at a) = true) l
  /\ NoDup (l_id <$> l)
  /\ Forall (fun d =>
               sessions st !! l_id d
               = Some {| s_created_at := l_created_at d;
                         s_updated_at := l_updated_at d;
                         s_title := l_title d;
                         s_model_name := l_model_name d |}
               /\ exists msgs,
                    fst (get_messages (l_id d) st) = Return msgs
                    /\ length msgs = l_message_count d) l
  /\ (0 <= limit -> Z.of_nat (length l) <= limit).
Proof. intros Hscan. apply listing_sound. exact Hscan. Qed.

Lemma get_all_sessions_sound_witness :
  (forall m : gmap string SessionRow, map_to_list m ≡ₚ map_to_list m)
  /\ NoDup (l_id <$> get_all_sessions map_to_list 50 sample.exchanged).
Proof.
  assert (H : forall m : gmap string SessionRow,
                map_to_list m ≡ₚ map_to_list m) by reflexivity.
  split; [exact H|].
  destruct (get_all_sessions_sound map_to_list 50 sample.exchanged H)
    as (_ & Hnodup & _).
  exact Hnodup.
Defined.

(** X14. With a limit that SQLite can bind, a signed 64-bit integer, and
    that is negative or at least the number of sessions,
    [get_all_sessions] lists every session of the store. *)
Theorem get_all_sessions_complete scan (limit : Z) (st : Store) (id : string) :
  (forall m, scan m ≡ₚ map_to_list m) ->
  - 2 ^ 63 <= limit < 2 ^ 63 ->
  limit < 0 \/ Z.of_nat (size (sessions st)) <= limit ->
  is_Some (sessions st !! id) ->
  id ∈ l_id <$> get_all_sessions scan limit st.
Proof. intros Hscan _. apply listing_complete. exact Hscan. Qed.

Lemma get_all_sessions_complete_witness :
  (forall m : gmap string SessionRow, map_to_list m ≡ₚ map_to_list m)
  /\ - 2 ^ 63 <= 50 < 2 ^ 63
  /\ (50 < 0 \/ Z.of_nat (size (sessions sample.exchanged)) <= 50)
  /\ is_Some (sessions sample.exchanged !! "s1")
  /\ "s1" ∈ l_id <$> get_all_sessions map_to_list 50 sample.exchanged.
Proof.
  assert (H : forall m : gmap string SessionRow,
                map_to_list m ≡ₚ map_to_list m) by reflexivity.
  assert (Hr : - 2 ^ 63 <= 50 < 2 ^ 63) by lia.
  assert (Hl : 50 < 0 \/ Z.of_nat (size (sessions sample.exchanged)) <= 50).
  { right. vm_compute. discriminate. }
  assert (Hs : is_Some (sessions sample.exchanged !! "s1")).
  { vm_compute. eauto. }
  split; [exact H|]. split; [exact Hr|]. split; [exact Hl|].
  split; [exact Hs|].
  exact (get_all_sessions_complete map_to_list 50 sample.exchanged "s1"
           H Hr Hl Hs).
Defined.

End listing_facts.

(** * Further properties of the dispatcher *)

Module route_extras.

Import database spec frame database_facts export_facts store_extras.
Import app app_facts routes requests.

(** The start of a turn, up to the point where the chat object for the
    session is in place: one goal for a live chat, one for a stored
    session, one for a new session. *)
Ltac chat_open Hr Hsid Hmsg sid Hlive Hrow :=
  unfold chat, try_except in Hr; rewrite Hsid, Hmsg in Hr;
  cbv zeta in Hr; cbn [falsy] in Hr;
  unfold mbind, Handler_bind, known in Hr; cbv beta in Hr;
  match type of Hr with
  | context [chat_sessions ?st !! sid] =>
      destruct (chat_sessions st !! sid) eqn:Hlive;
      [ rewrite bool_decide_eq_true_2 in Hr by eauto;
        unfold mret at 1, Handler_ret at 1 in Hr
      | rewrite bool_decide_eq_false_2 in Hr by (intros [? [=]]);
        rewrite call_eq, get_session_eq in Hr; cbn [fst snd db] in Hr;
        destruct (sessions (db st) !! sid) eqn:Hrow;
        cbn [fmap option_fmap option_map] in Hr;
        [ unfold mret at 1, Handler_ret at 1 in Hr
        | rewrite call_eq, create_session_eq in Hr;
          cbn [db log sessions] in Hr; rewrite Hrow in Hr;
          cbn [fst snd db chat_sessions] in Hr ];
        rewrite call_eq, get_messages_eq in Hr;
        cbn [fst snd db chat_sessions messages log with_sessions] in Hr;
        unfold start_chat in Hr; cbn [fst snd db chat_sessions] in Hr ]
  end.

(** The end of a turn in which the provider fails. *)
Ltac chat_fail Hsend Hr :=
  rewrite call_eq, add_message_eq in Hr; cbn [fst snd] in Hr;
  unfold chat_send in Hr; cbn [chat_sessions db] in Hr; rewrite Hsend in Hr;
  change (String.eqb "user" "user") with true in Hr;
  cbn [fst snd db messages sessions chat_sessions] in Hr;
  subst; cbn [fst snd db messages sessions chat_sessions].

(** X15. When the provider fails, the turn is answered with status 500
    and the provider's message; the user message has been stored by then
    and stays, no reply is stored, and the chat of the session has no new
    turn. *)
Theorem chat_provider_failure clock format_message send_message
    (data : gmap string string) (st : App) (sid : string) (c : ascii)
    (text : string) (e : exn) :
  get data "session_id" "default" = sid ->
  get data "message" EmptyString = String c text ->
  (forall history, send_message history (String c text) = Raise e) ->
  let r := chat clock format_message send_message data st in
  fst r = Jsonify (JDict [("error", JStr (str_exn e))]) 500
  /\ summary <$> messages (db (snd r))
     = ((summary <$> messages (db st))
        ++ [(sid, "user", String c text, None)])%list
  /\ (is_Some (chat_sessions st !! sid) ->
      chat_sessions (snd r) = chat_sessions st)
  /\ (chat_sessions st !! sid = None ->
      exists stored,
        fst (get_messages sid (db st)) = Return stored
        /\ chat_sessions (snd r)
           = <[sid := turn_of <$> stored]> (chat_sessions st)).
Proof.
  intros Hsid Hmsg Hsend r.
  assert (Hr : r = chat clock format_message send_message data st)
    by reflexivity.
  clearbody r.
  chat_open Hr Hsid Hmsg sid Hlive Hrow; chat_fail Hsend Hr.
  - split; [reflexivity|]. split; [|split; [reflexivity|discriminate]].
    rewrite fmap_app. reflexivity.
  - split; [reflexivity|]. split; [|split; [intros [? [=]]|]].
    + rewrite fmap_app. reflexivity.
    + intros _. rewrite get_messages_eq. eexists. split; reflexivity.
  - split; [reflexivity|]. split; [|split; [intros [? [=]]|]].
    + rewrite fmap_app. reflexivity.
    + intros _. rewrite get_messages_eq. eexists. split; reflexivity.
Qed.

Lemma chat_provider_failure_witness :
  get ({[ "message" := "Hi" ]} : gmap string string) "session_id" "default"
  = "default"
  /\ get ({[ "message" := "Hi" ]} : gmap string string) "message" EmptyString
     = "Hi"
  /\ (forall history, cases.down history "Hi"
                      = Raise (ProviderError "quota exceeded"))
  /\ fst (chat sample.clock sample.format cases.down {[ "message" := "Hi" ]}
            sample.started)
     = Jsonify (JDict [("error", JStr "quota exceeded")]) 500.
Proof.
  assert (Hs : get ({[ "message" := "Hi" ]} : gmap string string)
                 "session_id" "default" = "default") by reflexivity.
  assert (Hm : get ({[ "message" := "Hi" ]} : gmap string string)
                 "message" EmptyString = "Hi") by reflexivity.
  assert (Hp : forall history, cases.down history "Hi"
                               = Raise (ProviderError "quota exceeded"))
    by reflexivity.
  split; [exact Hs|]. split; [exact Hm|]. split; [exact Hp|].
  exact (proj1 (chat_provider_failure sample.clock sample.format cases.down
                  {[ "message" := "Hi" ]} sample.started "default" "H" "i"
                  (ProviderError "quota exceeded") Hs Hm Hp)).
Defined.

(** X16. The first message to a session id that is neither live nor
    stored creates the session and titles it: after a turn that succeeds,
    [get_session] on the id returns a session whose title is derived from
    the message, the two messages of the turn are stored under the id, and
    the response names the id. *)
Theorem chat_new_session clock format_message send_message
    (data : gmap string string) (st : App) (sid : string) (c : ascii)
    (text reply : string) :
  get data "session_id" "default" = sid ->
  get data "message" EmptyString = String c text ->
  (forall history, send_message history (String c text) = Return reply) ->
  chat_sessions st !! sid = None ->
  sessions (db st) !! sid = None ->
  let r := chat clock format_message send_message data st in
  fst r = Jsonify (JDict [("response", JStr (format_message reply));
                          ("raw_response", JStr reply);
                          ("session_id", JStr sid)]) 200
  /\ title_of (db (snd r)) sid = Some (auto_title (String c text))
  /\ summary <$> messages (db (snd r))
     = ((summary <$> messages (db st))
        ++ [(sid, "user", String c text, None);
            (sid, "assistant", reply, Some (format_message reply))])%list.
Proof.
  intros Hsid Hmsg Hsend Hnolive Hnorow r.
  assert (Hr : r = chat clock format_message send_message data st)
    by reflexivity.
  clearbody r.
  chat_open Hr Hsid Hmsg sid Hlive Hrow; try congruence.
  chat_tail Hsend Hr.
  split; [reflexivity|]. split.
  - unfold title_of. cbn [sessions log with_sessions].
    rewrite !lookup_alter_eq. cbn [sessions log with_sessions].
    rewrite lookup_insert_eq. cbn.
    unfold retitle, stored_title. cbn.
    destruct (auto_title (String c text)); reflexivity.
  - rewrite !fmap_app, <- app_assoc. reflexivity.
Qed.

Lemma chat_new_session_witness :
  get ({[ "message" := "Hi"; "session_id" := "s1" ]} : gmap string string)
    "session_id" "default" = "s1"
  /\ get ({[ "message" := "Hi"; "session_id" := "s1" ]} : gmap string string)
       "message" EmptyString = "Hi"
  /\ (forall history, sample.provider history "Hi" = Return "Hello there")
  /\ chat_sessions sample.started !! "s1" = None
  /\ sessions (db sample.started) !! "s1" = None
  /\ title_of (db cases.talked) "s1" = Some "Hi".
Proof.
  assert (Hs : get ({[ "message" := "Hi"; "session_id" := "s1" ]}
                      : gmap string string) "session_id" "default" = "s1")
    by reflexivity.
  assert (Hm : get ({[ "message" := "Hi"; "session_id" := "s1" ]}
                      : gmap string string) "message" EmptyString = "Hi")
    by reflexivity.
  assert (Hp : forall history, sample.provider history "Hi"
                               = Return "Hello there") by reflexivity.
  assert (Hl : chat_sessions sample.started !! "s1" = None) by reflexivity.
  assert (Hn : sessions (db sample.started) !! "s1" = None) by reflexivity.
  split; [exact Hs|]. split; [exact Hm|]. split; [exact Hp|].
  split; [exact Hl|]. split; [exact Hn|].
  destruct (chat_new_session sample.clock sample.format sample.provider
              {[ "message" := "Hi"; "session_id" := "s1" ]} sample.started
              "s1" "H" "i" "Hello there" Hs Hm Hp Hl Hn) as (_ & Ht & _).
  exact Ht.
Defined.

(** X17. The chat of a session is rebuilt from the store once: when the
    process holds no chat for the id, a turn that succeeds leaves the chat
    with one entry per message [get_messages] returned, user messages as
    [user] and all others as [model], followed by the two entries of the
    turn; when it holds one, the turn adds its two entries to it and the
    stored messages are not read. Chats of other sessions are untouched. *)
Theorem chat_history clock format_message send_message
    (data : gmap string string) (st : App) (sid : string) (c : ascii)
    (text reply : string) (other : string) :
  get data "session_id" "default" = sid ->
  get data "message" EmptyString = String c text ->
  (forall history, send_message history (String c text) = Return reply) ->
  other <> sid ->
  let st' := snd (chat clock format_message send_message data st) in
  let turn := [ {| role := "user"; parts := [String c text] |};
                {| role := "model"; parts := [reply] |} ] in
  (forall history,
     chat_sessions st !! sid = Some history ->
     chat_sessions st' !! sid = Some (history ++ turn)%list)
  /\ (chat_sessions st !! sid = None ->
      exists stored,
        fst (get_messages sid (db st)) = Return stored
        /\ chat_sessions st' !! sid = Some ((turn_of <$> stored) ++ turn)%list)
  /\ chat_sessions st' !! other = chat_sessions st !! other.
Proof.
  intros Hsid Hmsg Hsend Hother st' turn.
  remember (chat clock format_message send_message data st) as r eqn:Hr.
  subst st' turn.
  chat_open Hr Hsid Hmsg sid Hlive Hrow; chat_tail Hsend Hr.
  - rewrite Hlive. cbn [from_option id].
    rewrite lookup_insert_eq, lookup_insert_ne by congruence.
    split; [intros ? [= <-]; reflexivity|]. split; [discriminate|reflexivity].
  - rewrite !lookup_insert_eq, !lookup_insert_ne by congruence.
    cbn [from_option id].
    split; [intros ? [=]|]. split; [|exact Hlive || reflexivity].
    intros _. rewrite get_messages_eq. eexists. split; reflexivity.
  - rewrite !lookup_insert_eq, !lookup_insert_ne by congruence.
    cbn [from_option id].
    split; [intros ? [=]|]. split; [|exact Hlive || reflexivity].
    intros _. rewrite get_messages_eq. eexists. split; reflexivity.
Qed.

Lemma chat_history_witness :
  get ({[ "message" := "Hi"; "session_id" := "s1" ]} : gmap string string)
    "session_id" "default" = "s1"
  /\ get ({[ "message" := "Hi"; "session_id" := "s1" ]} : gmap string string)
       "message" EmptyString = "Hi"
  /\ (forall history, sample.provider history "Hi" = Return "Hello there")
  /\ "s2" <> "s1"
  /\ chat_sessions cases.talked !! "s2" = chat_sessions sample.started !! "s2".
Proof.
  assert (Hs : get ({[ "message" := "Hi"; "session_id" := "s1" ]}
                      : gmap string string) "session_id" "default" = "s1")
    by reflexivity.
  assert (Hm : get ({[ "message" := "Hi"; "session_id" := "s1" ]}
                      : gmap string string) "message" EmptyString = "Hi")
    by reflexivity.
  assert (Hp : forall history, sample.provider history "Hi"
                               = Return "Hello there") by reflexivity.
  assert (Hne : "s2" <> "s1") by discriminate.
  split; [exact Hs|]. split; [exact Hm|]. split; [exact Hp|].
  split; [exact Hne|].
  destruct (chat_history sample.clock sample.format sample.provider
              {[ "message" := "Hi"; "session_id" := "s1" ]} sample.started
              "s1" "H" "i" "Hello there" "s2" Hs Hm Hp Hne) as (_ & _ & Ho).
  exact Ho.
Defined.

(** X18. [POST /clear] with a JSON object for a body is
    [DELETE /sessions/<id>] on the id of the body, ['default'] when the
    body has none: it answers with status 200, leaves the process in the
    state the delete route leaves it in, without the session row and
    without the chat of that id, and touches no other session, no other
    chat and no message. With a body that cannot be read as JSON, or that
    is no object, it answers with status 500 and deletes nothing. *)
Theorem clear_chat_deletes (data : gmap string string) (st : App)
    (sid other text type_name : string) :
  get data "session_id" "default" = sid ->
  other <> sid ->
  let r := post_clear (Object data) st in
  (fst r = Jsonify (JDict [("message", JStr "Chat cleared successfully")]) 200
   /\ snd r = snd (app.delete_session sid st)
   /\ sessions (db (snd r)) !! sid = None
   /\ chat_sessions (snd r) !! sid = None
   /\ messages (db (snd r)) = messages (db st)
   /\ sessions (db (snd r)) !! other = sessions (db st) !! other
   /\ chat_sessions (snd r) !! other = chat_sessions st !! other)
  /\ post_clear (Unreadable text) st
     = (Jsonify (JDict [("error", JStr text)]) 500, st)
  /\ post_clear (NotObject type_name) st
     = (Jsonify
          (JDict [("error",
                   JStr ("'" +:+ type_name
                         +:+ "' object has no attribute 'get'"))]) 500, st).
Proof.
  intros Hsid Hother r. subst r. split; [|split; reflexivity].
  unfold post_clear, on_request, clear_chat. rewrite Hsid.
  unfold app.delete_session, try_except, mbind, Handler_bind, forget, call.
  cbn.
  rewrite !lookup_delete_eq, !lookup_delete_ne by congruence.
  repeat split.
Qed.

Lemma clear_chat_deletes_witness :
  get (∅ : gmap string string) "session_id" "default" = "default"
  /\ "s1" <> "default"
  /\ sessions (db (snd (post_clear (Object ∅) cases.talked))) !! "s1"
     = sessions (db cases.talked) !! "s1"
  /\ post_clear (NotObject "NoneType") cases.talked
     = (Jsonify
          (JDict [("error",
                   JStr "'NoneType' object has no attribute 'get'")]) 500,
        cases.talked).
Proof.
  assert (Hs : get (∅ : gmap string string) "session_id" "default"
               = "default") by reflexivity.
  assert (Hne : "s1" <> "default") by discriminate.
  split; [exact Hs|]. split; [exact Hne|].
  destruct (clear_chat_deletes ∅ cases.talked "default" "s1" "unused"
              "NoneType" Hs Hne)
    as ((_ & _ & _ & _ & _ & Ho & _) & _ & Hn).
  split; [exact Ho|exact Hn].
Defined.

(** X19. [GET /sessions/<id>] answers 404 exactly when the row of the
    session is missing, whether or not messages with that id are stored,
    and then has only looked the session up; for a session that exists it
    answers 200 with the session and the messages [get_messages]
    returns. *)
Theorem get_session_history_status (sid : string) (st : App) :
  (sessions (db st) !! sid = None ->
   get_session_history sid st
   = (Jsonify (JDict [("error", JStr "Session not found")]) 404,
      {| db := log (SELECT_session sid) (db st);
         chat_sessions := chat_sessions st |}))
  /\ (forall row,
        sessions (db st) !! sid = Some row ->
        exists session msgs,
          fst (get_session sid (db st)) = Return (Some session)
          /\ fst (get_messages sid (db st)) = Return msgs
          /\ fst (get_session_history sid st)
             = Jsonify (JDict [("session", session_json session);
                               ("messages", JList (message_json <$> msgs))])
                 200).
Proof.
  unfold get_session_history, try_except, mbind, Handler_bind.
  rewrite call_eq, get_session_eq. cbn [fst snd]. split.
  - intros ->. reflexivity.
  - intros row ->. cbn [fmap option_fmap option_map].
    rewrite call_eq, !get_messages_eq. cbn [fst snd db messages log].
    eexists. eexists. repeat split.
Qed.

Lemma get_session_history_status_witness :
  sessions (db (snd (clear_chat {[ "session_id" := "s1" ]} cases.talked)))
    !! "s1" = None
  /\ fst (get_session_history "s1"
            (snd (clear_chat {[ "session_id" := "s1" ]} cases.talked)))
     = Jsonify (JDict [("error", JStr "Session not found")]) 404
  /\ m_content <$> messages
       (db (snd (clear_chat {[ "session_id" := "s1" ]} cases.talked)))
     = ["Hi"; "Hello there"].
Proof.
  assert (H : sessions
                (db (snd (clear_chat {[ "session_id" := "s1" ]} cases.talked)))
                !! "s1" = None) by reflexivity.
  split; [exact H|]. split; [|reflexivity].
  rewrite (proj1 (get_session_history_status "s1"
                    (snd (clear_chat {[ "session_id" := "s1" ]} cases.talked)))
             H).
  reflexivity.
Defined.

(** X20. [POST /search] never returns more than 50 results and never
    changes the tables or the chats: whatever the body, readable or not,
    a list of results that it answers with has at most 50 entries, and the
    process is left as it was. *)
Theorem search_at_most_50 (body : Body) (st : App) :
  same_state (snd (post_search body st)) st
  /\ forall (results : list json) (status : Z),
       fst (post_search body st)
       = Jsonify (JDict [("results", JList results)]) status ->
       (length results <= 50)%nat.
Proof.
  unfold post_search, on_request.
  destruct body as [text|type_name|data];
    [split; [repeat split|intros ? ? [=]]..|].
  unfold search, try_except.
  destruct (falsy (get data "query" EmptyString)).
  - cbn. split; [repeat split|]. intros ? ? [= <- _]. simpl. lia.
  - unfold mbind, Handler_bind. rewrite call_eq, search_messages_eq.
    cbn [fst snd mret Handler_ret]. split; [repeat split|].
    intros ? ? [= <- _].
    rewrite !length_fmap. unfold sql_limit. cbn [Z.ltb Z.compare].
    rewrite length_take. lia.
Qed.

(** X21. The routes that read leave the process as it is: after the
    session detail route, the export route, the formatting preview and the
    model catalogue, whatever they answer, the tables and the chats are as
    before. *)
Theorem reading_routes_change_nothing json_dumps format_message
    genai_list_models (stamp sid format : string) (data : gmap string string)
    (st : App) :
  same_state (snd (get_session_history sid st)) st
  /\ same_state (snd (app.export_session json_dumps stamp sid format st)) st
  /\ same_state (snd (format_preview format_message data st)) st
  /\ same_state (snd (list_models genai_list_models st)) st.
Proof.
  split; [|split; [|split]].
  - unfold get_session_history, try_except, mbind, Handler_bind.
    rewrite call_eq, get_session_eq. cbn [fst snd].
    destruct (sessions (db st) !! sid); cbn [fmap option_fmap option_map];
      [rewrite call_eq, get_messages_eq|]; repeat split.
  - unfold app.export_session, try_except.
    destruct (negb (utils.mem format ["json"; "txt"])); [repeat split|].
    unfold mbind, Handler_bind. rewrite call_eq, export_session_eq.
    cbn [fst snd].
    destruct (String.eqb format "json"); [repeat split|].
    destruct (String.eqb format "txt"); [|repeat split].
    destruct (sessions (db st) !! sid); repeat split.
  - repeat split.
  - unfold list_models, try_except, mbind, Handler_bind.
    destruct genai_list_models; repeat split.
Qed.

(** X22. For a session that exists and a format [json] or [txt], the
    export route answers with a download of what the store's
    [export_session] returns, named
    [chat_export_<id>_<stamp>.<format>], as [application/json] for [json]
    and as [text/plain] for [txt]. *)
Theorem export_download json_dumps (stamp sid format : string) (st : App) :
  is_Some (sessions (db st) !! sid) ->
  format = "json" \/ format = "txt" ->
  exists content : string,
    fst (database.export_session json_dumps sid format (db st))
    = Return content
    /\ fst (app.export_session json_dumps stamp sid format st)
       = SendFile content
           (if String.eqb format "json" then "application/json"
            else "text/plain")
           ("chat_export_" +:+ sid +:+ "_" +:+ stamp +:+ "." +:+ format).
Proof.
  intros [row Hrow] [-> | ->];
    unfold app.export_session, try_except;
    change (negb (utils.mem _ _)) with false; cbv beta iota;
    unfold mbind, Handler_bind; rewrite call_eq, export_session_eq;
    cbn [fst snd]; rewrite Hrow; cbn; eexists; split; reflexivity.
Qed.

Lemma export_download_witness :
  is_Some (sessions (db cases.talked) !! "s1")
  /\ ("txt" = "json" \/ "txt" = "txt")
  /\ exists content : string,
       fst (app.export_session sample.dumps "20240101_000000" "s1" "txt"
              cases.talked)
       = SendFile content "text/plain" "chat_export_s1_20240101_000000.txt".
Proof.
  assert (Hs : is_Some (sessions (db cases.talked) !! "s1")).
  { vm_compute. eauto. }
  assert (Hf : "txt" = "json" \/ "txt" = "txt") by (right; reflexivity).
  split; [exact Hs|]. split; [exact Hf|].
  destruct (export_download sample.dumps "20240101_000000" "s1" "txt"
              cases.talked Hs Hf) as (content & _ & Hroute).
  exists content. exact Hroute.
Defined.

(** X27. For a body that is a JSON object with a message that is a string
    and not empty, and with a string or nothing for the session id: whatever
    the session id and the state of the process, live chat or not, stored
    session or not, a turn in which the provider answers with a text is
    answered with status 200, names the session id it used, and stores the
    user message and the reply under that id, in that order. *)
Theorem chat_succeeds clock format_message send_message
    (data : gmap string string) (st : App) (sid : string) (c : ascii)
    (text reply : string) :
  get data "session_id" "default" = sid ->
  get data "message" EmptyString = String c text ->
  (forall history, send_message history (String c text) = Return reply) ->
  let r := post_chat clock format_message send_message (Object data) st in
  fst r = Jsonify (JDict [("response", JStr (format_message reply));
                          ("raw_response", JStr reply);
                          ("session_id", JStr sid)]) 200
  /\ summary <$> messages (db (snd r))
     = ((summary <$> messages (db st))
        ++ [(sid, "user", String c text, None);
            (sid, "assistant", reply, Some (format_message reply))])%list.
Proof.
  intros Hsid Hmsg Hsend r. unfold post_chat, on_request in r.
  remember (chat clock format_message send_message data st) as r' eqn:Hr.
  subst r.
  chat_open Hr Hsid Hmsg sid Hlive Hrow; chat_tail Hsend Hr;
    (split; [reflexivity|]); rewrite !fmap_app, <- app_assoc; reflexivity.
Qed.

Lemma chat_succeeds_witness :
  get ({[ "message" := "Again"; "session_id" := "s1" ]} : gmap string string)
    "session_id" "default" = "s1"
  /\ get ({[ "message" := "Again"; "session_id" := "s1" ]}
            : gmap string string) "message" EmptyString = "Again"
  /\ (forall history, sample.provider history "Again" = Return "Hello there")
  /\ fst (post_chat sample.clock sample.format sample.provider
            (Object {[ "message" := "Again"; "session_id" := "s1" ]})
            cases.talked)
     = Jsonify (JDict [("response", JStr "<p>Hello there</p>");
                       ("raw_response", JStr "Hello there");
                       ("session_id", JStr "s1")]) 200.
Proof.
  assert (Hs : get ({[ "message" := "Again"; "session_id" := "s1" ]}
                      : gmap string string) "session_id" "default" = "s1")
    by reflexivity.
  assert (Hm : get ({[ "message" := "Again"; "session_id" := "s1" ]}
                      : gmap string string) "message" EmptyString = "Again")
    by reflexivity.
  assert (Hp : forall history, sample.provider history "Again"
                               = Return "Hello there") by reflexivity.
  split; [exact Hs|]. split; [exact Hm|]. split; [exact Hp|].
  exact (proj1 (chat_succeeds sample.clock sample.format sample.provider
                  {[ "message" := "Again"; "session_id" := "s1" ]}
                  cases.talked "s1" "A" "gain" "Hello there" Hs Hm Hp)).
Defined.

End route_extras.

(** * Further properties of the formatter *)

Module markup_extras.

Import utils markup markup_more utils_facts.

Lemma filter_forallb {A} (f : A -> bool) (l : list A) :
  forallb f l = true -> List.filter f l = l.
Proof.
  induction l as [|x l IH]; simpl; [reflexivity|].
  intros H. apply andb_prop in H as [Hx Hl]. rewrite Hx, IH by exact Hl.
  reflexivity.
Qed.

(** A tree within the lists is a fixed point of the cleaning. *)
Lemma clean_node_fixed uri_scheme (tags : list string)
    (attributes : list (string * list string)) (n : node) :
  allowed uri_scheme tags attributes n = true ->
  clean_node uri_scheme tags attributes true n = [n].
Proof.
  induction n as [s|s|tag attrs children IH] using node_induction;
    [reflexivity|discriminate|].
  rewrite allowed_element, clean_node_element. cbv zeta. intros H.
  apply andb_prop in H as [H Hch]. apply andb_prop in H as [Htag Hattrs].
  rewrite Htag, filter_forallb by exact Hattrs. do 2 f_equal.
  induction IH as [|x l Hx Hl IHl]; [reflexivity|].
  cbn [forallb] in Hch. apply andb_prop in Hch as [Hxa Hla].
  cbn [flat_map]. rewrite Hx, IHl by assumption. reflexivity.
Qed.

Lemma bleach_clean_fixed uri_scheme (html : list node) (tags : list string)
    (attributes : list (string * list string)) :
  forallb (allowed uri_scheme tags attributes) html = true ->
  bleach_clean uri_scheme html tags attributes true = html.
Proof.
  unfold bleach_clean. induction html as [|n html IH]; [reflexivity|].
  cbn [forallb flat_map]. intros H. apply andb_prop in H as [Hn Hl].
  rewrite clean_node_fixed, IH by assumption. reflexivity.
Qed.

(** X23. Markup that is already within the allow-list passes through the
    formatter untouched: when the rendered tree has only listed tags,
    listed attributes and addresses that are let through, and no comment,
    [format_message] returns that very tree. *)
Theorem format_message_keeps_allowed uri_scheme md_convert (text : string) :
  forallb (allowed uri_scheme ALLOWED_TAGS ALLOWED_ATTRIBUTES)
    (md_convert text) = true ->
  format_message_tree uri_scheme md_convert text = md_convert text.
Proof. intros H. apply bleach_clean_fixed. exact H. Qed.

Lemma format_message_keeps_allowed_witness :
  forallb (allowed sample.uri_scheme ALLOWED_TAGS ALLOWED_ATTRIBUTES)
    (sample.md_convert "**bold**") = true
  /\ format_message_tree sample.uri_scheme sample.md_convert "**bold**"
     = sample.md_convert "**bold**".
Proof.
  assert (H : forallb (allowed sample.uri_scheme ALLOWED_TAGS
                         ALLOWED_ATTRIBUTES)
                (sample.md_convert "**bold**") = true) by reflexivity.
  split; [exact H|].
  exact (format_message_keeps_allowed sample.uri_scheme sample.md_convert
           "**bold**" H).
Defined.

(** X24. Cleaning is idempotent: cleaning what [bleach_clean] returned,
    with the same lists, changes nothing more. *)
Theorem bleach_clean_idempotent uri_scheme (html : list node)
    (tags : list string) (attributes : list (string * list string)) :
  bleach_clean uri_scheme
    (bleach_clean uri_scheme html tags attributes true) tags attributes true
  = bleach_clean uri_scheme html tags attributes true.
Proof. apply bleach_clean_fixed, bleach_clean_allowed. Qed.

Lemma dict_get_unlisted (d : list (string * list string)) (k : string) :
  mem k (fst <$> d) = false -> dict_get d k = [].
Proof.
  induction d as [|[k' v] d IH]; [reflexivity|].
  cbn. rewrite String.eqb_sym.
  destruct (String.eqb k' k); [discriminate|]. exact IH.
Qed.

Lemma allowed_bare uri_scheme (n : node) :
  allowed uri_scheme ALLOWED_TAGS ALLOWED_ATTRIBUTES n = true ->
  bare_unless_listed n = true.
Proof.
  induction n as [s|s|tag attrs children IH] using node_induction;
    [reflexivity|reflexivity|].
  rewrite allowed_element. intros H.
  apply andb_prop in H as [H Hch]. apply andb_prop in H as [_ Hattrs].
  cbn [bare_unless_listed]. apply andb_true_intro. split.
  - destruct (mem tag attributed) eqn:Htag; [reflexivity|].
    destruct attrs as [|a attrs]; [reflexivity|].
    cbn [forallb] in Hattrs. apply andb_prop in Hattrs as [Ha _].
    unfold allow_attr in Ha.
    rewrite (dict_get_unlisted ALLOWED_ATTRIBUTES tag Htag) in Ha.
    discriminate Ha.
  - apply forallb_forall. intros c Hc.
    rewrite forallb_forall in Hch. rewrite Forall_forall in IH.
    apply IH; [apply list_elem_of_In, Hc|apply Hch, Hc].
Qed.

(** X25. Only links, images, code, preformatted blocks, spans and
    divisions keep attributes: in the tree that [format_message] returns,
    every other element, a heading or a table cell for one, has none, so
    no [id], [style] or [align] survives on it. *)
Theorem format_message_bare uri_scheme md_convert (text : string) :
  forallb bare_unless_listed (format_message_tree uri_scheme md_convert text)
  = true
  /\ attributed = ["a"; "img"; "code"; "pre"; "span"; "div"].
Proof.
  split; [|reflexivity].
  apply forallb_forall. intros n Hn. apply (allowed_bare uri_scheme).
  pose proof (bleach_clean_allowed uri_scheme (md_convert text) ALLOWED_TAGS
                ALLOWED_ATTRIBUTES) as Hall.
  rewrite forallb_forall in Hall. apply Hall, Hn.
Qed.

End markup_extras.
